(** * photo_bot: the validated configuration model

    A shallow embedding of [photo_bot/infrastructure/config/settings.py]:
    the [Settings] class (a pydantic-settings [BaseSettings]), its field
    constraints, its four validators, its derived properties, and the
    module-level accessor functions [get_settings], [reload_settings] and
    [get_test_settings] together with the module global
    [_settings_instance]; and of the application factory of
    [photo_bot/main.py].

    Conventions of the embedding.
    - A Python [str] is a Rocq [string], one [ascii] per character; an
      [int] is a [Z]; [Optional[str]] is [option string].
    - A raised exception is the left injection of a sum. The functions
      of the module catch and re-raise every [Exception] alike, so what
      [Settings()] raises is kept in one shape: the list of the places
      the exception reports, each with its kind.
    - The process environment is an argument of every function that reads
      it; the module global, the allocated objects and standard output
      form an explicit process state. *)

From stdpp Require Import base option list gmap strings.
From Stdlib Require Import ZArith Ascii String Bool Lia.

Local Open Scope string_scope.
Local Open Scope Z_scope.

(** ** Values that arrive from the environment *)

(** What the settings source holds for one field: nothing, a value of the
    declared type [A], or a text that is no value of that type, with the
    way [d : D] in which it is none. *)
Inductive raw (D A : Type) : Type :=
| Unset
| Given (a : A)
| Malformed (d : D).
Arguments Unset {D A}.
Arguments Given {D A} a.
Arguments Malformed {D A} d.

(** A text always is a [str]: a field of that type is never malformed.
    For an [int] or a [bool] field there is one way: the text does not
    parse. *)
Inductive unparsable : Type :=
| not_a_value.

(** [SUPPORTED_FORMATS] is the one field of a complex type, [List[str]]:
    the settings source decodes its text as JSON before anything is
    validated, and validation then wants a list of strings. *)
Inductive list_defect : Type :=
| not_json                                           (* the text is not JSON *)
| not_a_list                                         (* JSON, but not a list *)
| items_not_strings (index : nat) (others : list nat).
                          (* a list; the items at these indices are no strings *)

(** The field assignments of one settings source, field by field as the
    class declares them, and [extra]: the keys of the entries of the
    environment file that are no field of the class. [BaseSettings]
    forbids such keys by default, and the class does not change that. *)
Module Source.
Record t : Type := make {
  TELEGRAM_BOT_TOKEN : raw Empty_set string;
  PHOTOROOM_API_KEY : raw Empty_set string;
  SECRET_TOKEN : raw Empty_set string;
  HOST : raw Empty_set string;
  PORT : raw unparsable Z;
  WEBHOOK_URL : raw Empty_set string;
  MAX_IMAGE_SIZE_MB : raw unparsable Z;
  DEFAULT_IMAGE_QUALITY : raw unparsable Z;
  SUPPORTED_FORMATS : raw list_defect (list string);
  REQUEST_TIMEOUT : raw unparsable Z;
  SESSION_TTL : raw unparsable Z;
  RATE_LIMIT_PER_MINUTE : raw unparsable Z;
  ENABLE_PHOTOROOM : raw unparsable bool;
  ENABLE_PILLOW : raw unparsable bool;
  DEFAULT_PROCESSOR : raw Empty_set string;
  LOG_LEVEL : raw Empty_set string;
  ENABLE_FILE_LOGGING : raw unparsable bool;
  extra : list string
}.

(** A source that assigns nothing: every field falls back to its
    declared default. *)
Definition empty : t :=
  make Unset Unset Unset Unset Unset Unset Unset Unset Unset
       Unset Unset Unset Unset Unset Unset Unset Unset [].
End Source.

(** ** Validation errors *)

(** The texts of the [ValueError]s the validators raise. *)
Inductive Message : Type :=
| telegram_token_not_configured   (* TELEGRAM_BOT_TOKEN is not set up, check the .env file *)
| telegram_token_bad_format       (* wrong format of TELEGRAM_BOT_TOKEN *)
| photoroom_key_not_configured    (* PHOTOROOM_API_KEY is not set up, check the .env file *)
| photoroom_disabled_but_default  (* Photoroom is disabled but chosen as default processor *)
| pillow_disabled_but_default.    (* Pillow is disabled but chosen as default processor *)

(** The kinds of error that can be reported. *)
Inductive ErrorType : Type :=
| missing                          (* a required field has no value *)
| parsing                          (* the value does not parse to the declared type *)
| greater_than_equal (bound : Z)   (* violates [ge=bound] *)
| less_than_equal (bound : Z)      (* violates [le=bound] *)
| string_pattern_mismatch          (* violates [pattern=...] *)
| value_error (msg : Message)      (* a validator raised [ValueError] *)
| list_type                        (* the value is no list *)
| string_type (index : nat)        (* the item at [index] of the list is no string *)
| extra_forbidden                  (* the key is no field of the class *)
| settings_error.                  (* the settings source could not decode the text
                                      of the field: a [SettingsError], raised before
                                      any field is validated *)

(** One line of what is raised: the field (or the key) and what is wrong. *)
Definition ErrorDetail : Type := string * ErrorType.

(** What [Settings()] raises. A pydantic [ValidationError] lists one
    line for every failure it found. The [SettingsError] of the settings
    source is kept in the same shape: it is the one line for the field it
    names, of kind [settings_error]. *)
Definition ValidationError : Type := list ErrorDetail.

(** ** The machinery of [Field] *)

Definition checked (A : Type) : Type := ErrorType + A.

Definition and_then {A B : Type} (r : checked A) (f : A -> checked B) : checked B :=
  match r with
  | inl e => inl e
  | inr a => f a
  end.

Notation "r >>= f" := (and_then r f) (at level 50, left associativity).

(** [Field(default=...)]: the field is required. *)
Definition required {D A : Type} (r : raw D A) : checked A :=
  match r with
  | Unset => inl missing
  | Given a => inr a
  | Malformed _ => inl parsing
  end.

(** [Field(default=d)]: the default stands in for a value that is not
    supplied. [BaseSettings] validates defaults like supplied values, so
    the constraints and the validator of the field run on [d] as well. *)
Definition with_default {D A : Type} (d : A) (r : raw D A) : checked A :=
  match r with
  | Unset => inr d
  | Given a => inr a
  | Malformed _ => inl parsing
  end.

(** [ge=lo] and [le=hi]. *)
Definition ge (lo v : Z) : checked Z :=
  if v <? lo then inl (greater_than_equal lo) else inr v.

Definition le (hi v : Z) : checked Z :=
  if hi <? v then inl (less_than_equal hi) else inr v.

(** [pattern='^(a|b|...)$']: the whole string is one of the alternatives. *)
Definition pattern (alternatives : list string) (v : string) : checked string :=
  if bool_decide (v ∈ alternatives) then inr v else inl string_pattern_mismatch.

(** Python's [sub in s] on strings. *)
Fixpoint str_in (sub s : string) : bool :=
  String.prefix sub s ||
  match s with
  | EmptyString => false
  | String _ s' => str_in sub s'
  end.

(** Python's [len(s)] as an [int]. *)
Definition len (s : string) : Z := Z.of_nat (String.length s).

(** ** The validators of the class *)

Definition validate_telegram_token (v : string) : checked string :=
  if (v =? "")%string || (v =? "your_telegram_bot_token_here")%string
  then inl (value_error telegram_token_not_configured)
  else if negb (str_in ":" v) || (len v <? 30)
  then inl (value_error telegram_token_bad_format)
  else inr v.

Definition validate_photoroom_key (v : string) : checked string :=
  if (v =? "")%string || (v =? "your_photoroom_api_key_here")%string
  then inl (value_error photoroom_key_not_configured)
  else inr v.

(** [v] is [None] when the variable is not supplied. *)
Definition validate_webhook_url (v : option string) : checked (option string) :=
  match v with
  | Some u =>
      if negb (u =? "")%string && String.prefix "https://yourdomain" u
      then inr None
      else inr v
  | None => inr v
  end.

(** A value stored in the [values] dictionary that pydantic hands to a
    validator: the fields validated so far, under their names. *)
Inductive value : Type :=
| VNone
| VStr (s : string)
| VInt (n : Z)
| VBool (b : bool)
| VList (l : list string).

(** Python truthiness, as [not x] needs it. *)
Definition truthy (x : value) : bool :=
  match x with
  | VNone => false
  | VStr s => negb (s =? "")%string
  | VInt n => negb (n =? 0)
  | VBool b => b
  | VList l => match l with [] => false | _ => true end
  end.

(** [values.get(key, dflt)] *)
Definition get (values : gmap string value) (key : string) (dflt : value) : value :=
  default dflt (values !! key).

Definition validate_default_processor
    (v : string) (values : gmap string value) : checked string :=
  if (v =? "photoroom")%string && negb (truthy (get values "ENABLE_PHOTOROOM" (VBool true)))
  then inl (value_error photoroom_disabled_but_default)
  else if (v =? "pillow")%string && negb (truthy (get values "ENABLE_PILLOW" (VBool true)))
  then inl (value_error pillow_disabled_but_default)
  else inr v.

(** ** The fields of the class, in declaration order

    Each [field_X] is the whole treatment of one field: the value supplied
    or the declared default, then the constraints of [Field], then the
    validator registered for the field. *)

Definition field_TELEGRAM_BOT_TOKEN (src : Source.t) : checked string :=
  required (Source.TELEGRAM_BOT_TOKEN src) >>= validate_telegram_token.

Definition field_PHOTOROOM_API_KEY (src : Source.t) : checked string :=
  required (Source.PHOTOROOM_API_KEY src) >>= validate_photoroom_key.

Definition field_SECRET_TOKEN (src : Source.t) : checked string :=
  with_default "my_secret_token_123" (Source.SECRET_TOKEN src).

Definition field_HOST (src : Source.t) : checked string :=
  with_default "127.0.0.1" (Source.HOST src).

Definition field_PORT (src : Source.t) : checked Z :=
  with_default 8000 (Source.PORT src) >>= ge 1000 >>= le 65535.

Definition field_WEBHOOK_URL (src : Source.t) : checked (option string) :=
  match Source.WEBHOOK_URL src with
  | Unset => validate_webhook_url None
  | Given u => validate_webhook_url (Some u)
  | Malformed _ => inl parsing
  end.

Definition field_MAX_IMAGE_SIZE_MB (src : Source.t) : checked Z :=
  with_default 10 (Source.MAX_IMAGE_SIZE_MB src) >>= ge 1 >>= le 50.

Definition field_DEFAULT_IMAGE_QUALITY (src : Source.t) : checked Z :=
  with_default 85 (Source.DEFAULT_IMAGE_QUALITY src) >>= ge 1 >>= le 100.

(** The list field reports one error for every item that is no string.
    A text that is not JSON never comes this far: see [Settings_new]. *)
Definition field_SUPPORTED_FORMATS (src : Source.t) : list ErrorType + list string :=
  match Source.SUPPORTED_FORMATS src with
  | Unset => inr ["JPEG"; "PNG"; "WEBP"]
  | Given l => inr l
  | Malformed not_json => inl [settings_error]
  | Malformed not_a_list => inl [list_type]
  | Malformed (items_not_strings i others) => inl (string_type i :: map string_type others)
  end.

Definition field_REQUEST_TIMEOUT (src : Source.t) : checked Z :=
  with_default 30 (Source.REQUEST_TIMEOUT src) >>= ge 5 >>= le 120.

Definition field_SESSION_TTL (src : Source.t) : checked Z :=
  with_default 3600 (Source.SESSION_TTL src) >>= ge 300 >>= le 86400.

Definition field_RATE_LIMIT_PER_MINUTE (src : Source.t) : checked Z :=
  with_default 20 (Source.RATE_LIMIT_PER_MINUTE src) >>= ge 1 >>= le 1000.

Definition field_ENABLE_PHOTOROOM (src : Source.t) : checked bool :=
  with_default true (Source.ENABLE_PHOTOROOM src).

Definition field_ENABLE_PILLOW (src : Source.t) : checked bool :=
  with_default true (Source.ENABLE_PILLOW src).

(** The [values] dictionary grows by one entry per field that validated;
    a field that failed is left out of it. *)
Definition record {E A : Type} (name : string) (inj : A -> value)
    (r : E + A) (values : gmap string value) : gmap string value :=
  match r with
  | inr a => <[name := inj a]> values
  | inl _ => values
  end.

Definition VOpt (o : option string) : value :=
  match o with
  | Some s => VStr s
  | None => VNone
  end.

(** The dictionary at the moment [DEFAULT_PROCESSOR] is validated: the
    fourteen fields declared before it. *)
Definition values_before_DEFAULT_PROCESSOR (src : Source.t) : gmap string value :=
  record "ENABLE_PILLOW" VBool (field_ENABLE_PILLOW src)
  (record "ENABLE_PHOTOROOM" VBool (field_ENABLE_PHOTOROOM src)
  (record "RATE_LIMIT_PER_MINUTE" VInt (field_RATE_LIMIT_PER_MINUTE src)
  (record "SESSION_TTL" VInt (field_SESSION_TTL src)
  (record "REQUEST_TIMEOUT" VInt (field_REQUEST_TIMEOUT src)
  (record "SUPPORTED_FORMATS" VList (field_SUPPORTED_FORMATS src)
  (record "DEFAULT_IMAGE_QUALITY" VInt (field_DEFAULT_IMAGE_QUALITY src)
  (record "MAX_IMAGE_SIZE_MB" VInt (field_MAX_IMAGE_SIZE_MB src)
  (record "WEBHOOK_URL" VOpt (field_WEBHOOK_URL src)
  (record "PORT" VInt (field_PORT src)
  (record "HOST" VStr (field_HOST src)
  (record "SECRET_TOKEN" VStr (field_SECRET_TOKEN src)
  (record "PHOTOROOM_API_KEY" VStr (field_PHOTOROOM_API_KEY src)
  (record "TELEGRAM_BOT_TOKEN" VStr (field_TELEGRAM_BOT_TOKEN src)
     ∅))))))))))))).

Definition field_DEFAULT_PROCESSOR (src : Source.t) : checked string :=
  with_default "photoroom" (Source.DEFAULT_PROCESSOR src)
    >>= pattern ["photoroom"; "pillow"]
    >>= fun v => validate_default_processor v (values_before_DEFAULT_PROCESSOR src).

Definition field_LOG_LEVEL (src : Source.t) : checked string :=
  with_default "INFO" (Source.LOG_LEVEL src)
    >>= pattern ["DEBUG"; "INFO"; "WARNING"; "ERROR"; "CRITICAL"].

Definition field_ENABLE_FILE_LOGGING (src : Source.t) : checked bool :=
  with_default true (Source.ENABLE_FILE_LOGGING src).

(** ** The class *)

Record Settings : Type := Build_Settings {
  TELEGRAM_BOT_TOKEN : string;
  PHOTOROOM_API_KEY : string;
  SECRET_TOKEN : string;
  HOST : string;
  PORT : Z;
  WEBHOOK_URL : option string;
  MAX_IMAGE_SIZE_MB : Z;
  DEFAULT_IMAGE_QUALITY : Z;
  SUPPORTED_FORMATS : list string;
  REQUEST_TIMEOUT : Z;
  SESSION_TTL : Z;
  RATE_LIMIT_PER_MINUTE : Z;
  ENABLE_PHOTOROOM : bool;
  ENABLE_PILLOW : bool;
  DEFAULT_PROCESSOR : string;
  LOG_LEVEL : string;
  ENABLE_FILE_LOGGING : bool
}.

(** Construction either raises a [ValidationError] that lists every field
    that failed, or returns the instance. *)
Definition validated (A : Type) : Type := ValidationError + A.

Definition at_field {A : Type} (name : string) (r : checked A) : validated A :=
  match r with
  | inl e => inl [(name, e)]
  | inr a => inr a
  end.

(** Apply a constructor under validation, keeping the errors of both
    sides in order. *)
Definition ap {A B : Type} (f : validated (A -> B)) (x : validated A) : validated B :=
  match f, x with
  | inr g, inr a => inr (g a)
  | inr _, inl e => inl e
  | inl e, inr _ => inl e
  | inl e, inl e' => inl (e ++ e')%list
  end.

Notation "f <*> x" := (ap f x) (at level 61, left associativity).

(** The same for the field that reports an error per item. *)
Definition at_field_each {A : Type} (name : string) (r : list ErrorType + A)
    : validated A :=
  match r with
  | inl es => inl (map (pair name) es)
  | inr a => inr a
  end.

(** The errors a construction attempt reports; none when it succeeds. *)
Definition errors {A : Type} (v : validated A) : ValidationError :=
  match v with
  | inl e => e
  | inr _ => []
  end.

(** The validation of the fields, in declaration order; every field is
    validated, whether an earlier one failed or not. *)
Definition Settings_validate (src : Source.t) : validated Settings :=
  inr Build_Settings
    <*> at_field "TELEGRAM_BOT_TOKEN" (field_TELEGRAM_BOT_TOKEN src)
    <*> at_field "PHOTOROOM_API_KEY" (field_PHOTOROOM_API_KEY src)
    <*> at_field "SECRET_TOKEN" (field_SECRET_TOKEN src)
    <*> at_field "HOST" (field_HOST src)
    <*> at_field "PORT" (field_PORT src)
    <*> at_field "WEBHOOK_URL" (field_WEBHOOK_URL src)
    <*> at_field "MAX_IMAGE_SIZE_MB" (field_MAX_IMAGE_SIZE_MB src)
    <*> at_field "DEFAULT_IMAGE_QUALITY" (field_DEFAULT_IMAGE_QUALITY src)
    <*> at_field_each "SUPPORTED_FORMATS" (field_SUPPORTED_FORMATS src)
    <*> at_field "REQUEST_TIMEOUT" (field_REQUEST_TIMEOUT src)
    <*> at_field "SESSION_TTL" (field_SESSION_TTL src)
    <*> at_field "RATE_LIMIT_PER_MINUTE" (field_RATE_LIMIT_PER_MINUTE src)
    <*> at_field "ENABLE_PHOTOROOM" (field_ENABLE_PHOTOROOM src)
    <*> at_field "ENABLE_PILLOW" (field_ENABLE_PILLOW src)
    <*> at_field "DEFAULT_PROCESSOR" (field_DEFAULT_PROCESSOR src)
    <*> at_field "LOG_LEVEL" (field_LOG_LEVEL src)
    <*> at_field "ENABLE_FILE_LOGGING" (field_ENABLE_FILE_LOGGING src).

(** The names of the fields, in declaration order. *)
Definition field_names : list string :=
  [ "TELEGRAM_BOT_TOKEN"; "PHOTOROOM_API_KEY"; "SECRET_TOKEN"; "HOST"; "PORT";
    "WEBHOOK_URL"; "MAX_IMAGE_SIZE_MB"; "DEFAULT_IMAGE_QUALITY"; "SUPPORTED_FORMATS";
    "REQUEST_TIMEOUT"; "SESSION_TTL"; "RATE_LIMIT_PER_MINUTE"; "ENABLE_PHOTOROOM";
    "ENABLE_PILLOW"; "DEFAULT_PROCESSOR"; "LOG_LEVEL"; "ENABLE_FILE_LOGGING" ].

(** The keys that are forbidden: a key that is the name of a field is
    the entry of that field, not an extra one. *)
Definition forbidden (src : Source.t) : list string :=
  filter (fun key => key ∉ field_names) (Source.extra src).

(** [extra='forbid']: every forbidden key is one more error, after the
    errors of the fields. *)
Definition forbid_extra {A : Type} (keys : list string) (v : validated A)
    : validated A :=
  match keys with
  | [] => v
  | _ :: _ => inl (errors v ++ map (fun key => (key, extra_forbidden)) keys)%list
  end.

(** [Settings()] reading its values from [src]. The settings source
    decodes the text of the list field first: when that is not JSON, the
    attempt ends there with a [SettingsError] that names this field alone,
    whatever the other fields hold. Otherwise the fields are validated and
    the extra keys refused. *)
Definition Settings_new (src : Source.t) : validated Settings :=
  match Source.SUPPORTED_FORMATS src with
  | Malformed not_json => inl [("SUPPORTED_FORMATS", settings_error)]
  | _ => forbid_extra (forbidden src) (Settings_validate src)
  end.

(** ** Derived properties *)

Definition is_development (self : Settings) : bool :=
  bool_decide (HOST self ∈ ["127.0.0.1"; "localhost"])
  || bool_decide (PORT self ∈ [8000; 8080]).

Definition is_not_None {A : Type} (o : option A) : bool :=
  match o with
  | Some _ => true
  | None => false
  end.

Definition is_production (self : Settings) : bool :=
  is_not_None (WEBHOOK_URL self) && negb (is_development self).

Definition max_image_size_bytes (self : Settings) : Z :=
  MAX_IMAGE_SIZE_MB self * 1024 * 1024.

Definition webhook_enabled (self : Settings) : bool :=
  is_not_None (WEBHOOK_URL self) && is_production self.

(** ** The module-level state and the accessor functions *)

(** [World] is what the outside offers at the moment of a call: for the
    name of an environment file, the field assignments pydantic-settings
    resolves from the process environment and that file, and the keys of
    that file that are no field. *)
Definition World : Type := string -> Source.t.

(** [class Config: env_file = '.env'] *)
Definition Settings_env_file : string := ".env".

(** [class TestSettings(Settings)] with [class Config: env_file = '.env.test'].
    The subclass declares no field and no validator of its own. *)
Definition TestSettings_env_file : string := ".env.test".

(** A reference to an allocated instance: two references are the same
    object exactly when they are equal. *)
Definition Ref : Type := nat.

(** What the functions print. *)
Inductive Line : Type :=
| loaded_line                              (* settings loaded successfully *)
| host_line (host : string)
| port_line (port : Z)
| telegram_bot_line (configured : bool)
| photoroom_api_line (configured : bool)
| webhook_line (url : option string)       (* [None]: local mode *)
| load_error_line (e : ValidationError)    (* settings loading error: e *)
| check_env_line.                          (* check the .env file or the environment *)

Record Process : Type := Build_Process {
  _settings_instance : option Ref;
  objects : list Settings;
  stdout : list Line
}.

(** The state of a freshly imported module. *)
Definition unloaded : Process :=
  {| _settings_instance := None; objects := []; stdout := [] |}.

Definition print (l : Line) (p : Process) : Process :=
  {| _settings_instance := _settings_instance p;
     objects := objects p;
     stdout := stdout p ++ [l] |}.

Definition assign_settings_instance (o : option Ref) (p : Process) : Process :=
  {| _settings_instance := o;
     objects := objects p;
     stdout := stdout p |}.

(** A new object gets the next free reference. *)
Definition allocate (s : Settings) (p : Process) : Ref * Process :=
  (List.length (objects p),
   {| _settings_instance := _settings_instance p;
      objects := objects p ++ [s];
      stdout := stdout p |}).

(** The truth value of a string: [s] in [x if s else y]. *)
Definition str_truthy (s : string) : bool := negb (s =? "")%string.

(** [get_settings()]. After the assignment the function reads the fields
    through the module global; that is the object [s] just allocated. *)
Definition get_settings (w : World) (p : Process) : Process * (ValidationError + Ref) :=
  match _settings_instance p with
  | None =>
      match Settings_new (w Settings_env_file) with
      | inr s =>
          let '(r, p) := allocate s p in
          let p := assign_settings_instance (Some r) p in
          let settings_instance := str_truthy (TELEGRAM_BOT_TOKEN s) in
          let photo_api := str_truthy (PHOTOROOM_API_KEY s) in
          let webhook :=
            match WEBHOOK_URL s with
            | Some u => if str_truthy u then Some u else None
            | None => None
            end in
          let p := print loaded_line p in
          let p := print (host_line (HOST s)) p in
          let p := print (port_line (PORT s)) p in
          let p := print (telegram_bot_line settings_instance) p in
          let p := print (photoroom_api_line photo_api) p in
          let p := print (webhook_line webhook) p in
          (p, inr r)
      | inl e =>
          let p := print (load_error_line e) p in
          let p := print check_env_line p in
          (p, inl e)
      end
  | Some r => (p, inr r)
  end.

(** [reload_settings()] *)
Definition reload_settings (w : World) (p : Process) : Process * (ValidationError + Ref) :=
  let p := assign_settings_instance None p in
  get_settings w p.

(** [get_test_settings()]: [return TestSettings()] *)
Definition get_test_settings (w : World) (p : Process) : Process * (ValidationError + Ref) :=
  match Settings_new (w TestSettings_env_file) with
  | inr s => let '(r, p) := allocate s p in (p, inr r)
  | inl e => (p, inl e)
  end.


(** ** The numeric fields, as the specification tabulates them *)

Inductive NumericField : Type :=
| numeric_PORT
| numeric_MAX_IMAGE_SIZE_MB
| numeric_DEFAULT_IMAGE_QUALITY
| numeric_REQUEST_TIMEOUT
| numeric_SESSION_TTL
| numeric_RATE_LIMIT_PER_MINUTE.

Definition numeric_name (f : NumericField) : string :=
  match f with
  | numeric_PORT => "PORT"
  | numeric_MAX_IMAGE_SIZE_MB => "MAX_IMAGE_SIZE_MB"
  | numeric_DEFAULT_IMAGE_QUALITY => "DEFAULT_IMAGE_QUALITY"
  | numeric_REQUEST_TIMEOUT => "REQUEST_TIMEOUT"
  | numeric_SESSION_TTL => "SESSION_TTL"
  | numeric_RATE_LIMIT_PER_MINUTE => "RATE_LIMIT_PER_MINUTE"
  end.

(** The range the specification declares for each numeric field. *)
Definition declared_range (f : NumericField) : Z * Z :=
  match f with
  | numeric_PORT => (1000, 65535)
  | numeric_MAX_IMAGE_SIZE_MB => (1, 50)
  | numeric_DEFAULT_IMAGE_QUALITY => (1, 100)
  | numeric_REQUEST_TIMEOUT => (5, 120)
  | numeric_SESSION_TTL => (300, 86400)
  | numeric_RATE_LIMIT_PER_MINUTE => (1, 1000)
  end.

(** What the source supplies for the field. *)
Definition numeric_supplied (f : NumericField) (src : Source.t) : raw unparsable Z :=
  match f with
  | numeric_PORT => Source.PORT src
  | numeric_MAX_IMAGE_SIZE_MB => Source.MAX_IMAGE_SIZE_MB src
  | numeric_DEFAULT_IMAGE_QUALITY => Source.DEFAULT_IMAGE_QUALITY src
  | numeric_REQUEST_TIMEOUT => Source.REQUEST_TIMEOUT src
  | numeric_SESSION_TTL => Source.SESSION_TTL src
  | numeric_RATE_LIMIT_PER_MINUTE => Source.RATE_LIMIT_PER_MINUTE src
  end.

(** The attribute of the instance. *)
Definition numeric_attribute (f : NumericField) (self : Settings) : Z :=
  match f with
  | numeric_PORT => PORT self
  | numeric_MAX_IMAGE_SIZE_MB => MAX_IMAGE_SIZE_MB self
  | numeric_DEFAULT_IMAGE_QUALITY => DEFAULT_IMAGE_QUALITY self
  | numeric_REQUEST_TIMEOUT => REQUEST_TIMEOUT self
  | numeric_SESSION_TTL => SESSION_TTL self
  | numeric_RATE_LIMIT_PER_MINUTE => RATE_LIMIT_PER_MINUTE self
  end.

(** ** Sample sources *)

(** The example token and key that the [Field] declarations quote. *)
Definition example_token : string := "1234567890:ABCDEFGHIJKLMNOPQRSTUVWXYZabcdefghi".
Definition example_key : string := "photoroom_apikey_1234567890abcdef".

(** Only the two secrets are supplied. *)
Definition secrets_only : Source.t :=
  Source.make (Given example_token) (Given example_key) Unset Unset Unset Unset
              Unset Unset Unset Unset Unset Unset Unset Unset Unset Unset Unset [].

(** The secrets, a host and a port. *)
Definition served_at (host : string) (port : Z) : Source.t :=
  Source.make (Given example_token) (Given example_key) Unset (Given host) (Given port)
              Unset Unset Unset Unset Unset Unset Unset Unset Unset Unset Unset Unset [].

(** The secrets, the two toggles and, possibly, a default processor. *)
Definition processors (photoroom pillow : bool) (dflt : raw Empty_set string)
    : Source.t :=
  Source.make (Given example_token) (Given example_key) Unset Unset Unset Unset
              Unset Unset Unset Unset Unset Unset
              (Given photoroom) (Given pillow) dflt Unset Unset [].

(** The secrets and one numeric field. *)
Definition with_numeric (f : NumericField) (v : Z) : Source.t :=
  let at_ (g : NumericField) : raw unparsable Z :=
    match f, g with
    | numeric_PORT, numeric_PORT
    | numeric_MAX_IMAGE_SIZE_MB, numeric_MAX_IMAGE_SIZE_MB
    | numeric_DEFAULT_IMAGE_QUALITY, numeric_DEFAULT_IMAGE_QUALITY
    | numeric_REQUEST_TIMEOUT, numeric_REQUEST_TIMEOUT
    | numeric_SESSION_TTL, numeric_SESSION_TTL
    | numeric_RATE_LIMIT_PER_MINUTE, numeric_RATE_LIMIT_PER_MINUTE => Given v
    | _, _ => Unset
    end in
  Source.make (Given example_token) (Given example_key) Unset Unset
              (at_ numeric_PORT) Unset
              (at_ numeric_MAX_IMAGE_SIZE_MB) (at_ numeric_DEFAULT_IMAGE_QUALITY) Unset
              (at_ numeric_REQUEST_TIMEOUT) (at_ numeric_SESSION_TTL)
              (at_ numeric_RATE_LIMIT_PER_MINUTE)
              Unset Unset Unset Unset Unset [].

(** The secrets and a webhook URL. *)
Definition with_webhook (url : string) : Source.t :=
  Source.make (Given example_token) (Given example_key) Unset Unset Unset (Given url)
              Unset Unset Unset Unset Unset Unset Unset Unset Unset Unset Unset [].

(** A world in which every environment file resolves to the same source. *)
Definition everywhere (src : Source.t) : World := fun _ => src.

(** ** Vocabulary for the statements *)

(** The attempt raises. *)
Definition fails {A : Type} (v : validated A) : Prop :=
  exists e, v = inl e.

(** The settings source could decode its texts: the list field, if
    supplied, is JSON. *)
Definition decodes (src : Source.t) : Prop :=
  Source.SUPPORTED_FORMATS src <> Malformed not_json.

(** The attempt raises, and the error lists field [name] with kind [ty]. *)
Definition fails_at {A : Type} (v : validated A) (name : string) (ty : ErrorType) : Prop :=
  exists e, v = inl e /\ In (name, ty) e.

(** The attempt raises, and the error lists field [name]. *)
Definition blames {A : Type} (v : validated A) (name : string) : Prop :=
  exists ty, fails_at v name ty.

(** A raised error is never empty. *)
Definition nonempty_on_failure {A : Type} (v : validated A) : Prop :=
  match v with
  | inl e => e <> []
  | inr _ => True
  end.

(** The treatment of one field went through. *)
Definition passes {E A : Type} (r : E + A) : Prop :=
  exists a, r = inr a.

(** Every field other than [DEFAULT_PROCESSOR] is valid. *)
Definition fields_around_DEFAULT_PROCESSOR_pass (src : Source.t) : Prop :=
  passes (field_TELEGRAM_BOT_TOKEN src) /\
  passes (field_PHOTOROOM_API_KEY src) /\
  passes (field_SECRET_TOKEN src) /\
  passes (field_HOST src) /\
  passes (field_PORT src) /\
  passes (field_WEBHOOK_URL src) /\
  passes (field_MAX_IMAGE_SIZE_MB src) /\
  passes (field_DEFAULT_IMAGE_QUALITY src) /\
  passes (field_SUPPORTED_FORMATS src) /\
  passes (field_REQUEST_TIMEOUT src) /\
  passes (field_SESSION_TTL src) /\
  passes (field_RATE_LIMIT_PER_MINUTE src) /\
  passes (field_ENABLE_PHOTOROOM src) /\
  passes (field_ENABLE_PILLOW src) /\
  passes (field_LOG_LEVEL src) /\
  passes (field_ENABLE_FILE_LOGGING src).

(** The process state is well formed when the module global, if set,
    refers to an allocated object. *)
Definition well_formed (p : Process) : Prop :=
  match _settings_instance p with
  | Some r => (r < List.length (objects p))%nat
  | None => True
  end.

(** The object behind a reference. *)
Definition deref (p : Process) (r : Ref) : option Settings := objects p !! r.

(** What a successful first access prints, and what a failed one prints. *)
Definition summary (self : Settings) : list Line :=
  [ loaded_line;
    host_line (HOST self);
    port_line (PORT self);
    telegram_bot_line (str_truthy (TELEGRAM_BOT_TOKEN self));
    photoroom_api_line (str_truthy (PHOTOROOM_API_KEY self));
    webhook_line (match WEBHOOK_URL self with
                  | Some u => if str_truthy u then Some u else None
                  | None => None
                  end) ].

Definition failure_report (e : ValidationError) : list Line :=
  [ load_error_line e; check_env_line ].

(** ** The application factory

    [photo_bot/main.py]. Of a [FastAPI] object only what the factory
    sets and a consumer reads back is kept: the version, the two
    documentation URLs and [app.state.settings]; the title and the
    description are display texts that nothing depends on. Every call of
    the constructor makes a new object, so applications live in a store
    of their own and are handed out by reference. *)

Record FastAPI : Type := Build_FastAPI {
  version : string;
  docs_url : string;
  redoc_url : string;
  state_settings : Ref
}.

(** A reference to an application object. *)
Definition AppRef : Type := nat.

(** The state of the program: that of the settings module, and the
    applications built so far. *)
Record Program : Type := Build_Program {
  settings_module : Process;
  applications : list FastAPI
}.

(** The application behind a reference. *)
Definition application (g : Program) (a : AppRef) : option FastAPI :=
  applications g !! a.

(** [create_application()]: an exception of [get_settings] leaves the
    function before any application exists. *)
Definition create_application (w : World) (g : Program)
    : Program * (ValidationError + AppRef) :=
  match get_settings w (settings_module g) with
  | (p, inr settings) =>
      let app := {| version := "1.0.0";
                    docs_url := "/docs";
                    redoc_url := "/redoc";
                    state_settings := settings |} in
      ({| settings_module := p; applications := applications g ++ [app] |},
       inr (List.length (applications g)))
  | (p, inl e) =>
      ({| settings_module := p; applications := applications g |}, inl e)
  end.

(** ** Runs of calls *)

(** The three functions of the settings module a client can call. *)
Inductive Call : Type :=
| call_get_settings
| call_reload_settings
| call_get_test_settings.

Definition perform (c : Call) (w : World) (p : Process)
    : Process * (ValidationError + Ref) :=
  match c with
  | call_get_settings => get_settings w p
  | call_reload_settings => reload_settings w p
  | call_get_test_settings => get_test_settings w p
  end.

(** The state after a sequence of calls, each in the world of its moment;
    a call that raises is caught by the client and the run goes on. *)
Fixpoint run (cs : list (Call * World)) (p : Process) : Process :=
  match cs with
  | [] => p
  | (c, w) :: cs' => run cs' (fst (perform c w p))
  end.

(** What the caller can observe of an outcome: the error, or the fields
    of the instance behind the returned reference. *)
Definition observed (out : Process * (ValidationError + Ref))
    : ValidationError + option Settings :=
  match snd out with
  | inl e => inl e
  | inr r => inr (deref (fst out) r)
  end.

(** ** The constraints of the class, on an instance *)

Definition placeholder_prefix : string := "https://yourdomain".

Definition Settings_invariant (self : Settings) : Prop :=
  (TELEGRAM_BOT_TOKEN self <> ""
   /\ TELEGRAM_BOT_TOKEN self <> "your_telegram_bot_token_here"
   /\ str_in ":" (TELEGRAM_BOT_TOKEN self) = true
   /\ 30 <= len (TELEGRAM_BOT_TOKEN self))
  /\ (PHOTOROOM_API_KEY self <> ""
      /\ PHOTOROOM_API_KEY self <> "your_photoroom_api_key_here")
  /\ 1000 <= PORT self <= 65535
  /\ (forall u, WEBHOOK_URL self = Some u -> String.prefix placeholder_prefix u = false)
  /\ 1 <= MAX_IMAGE_SIZE_MB self <= 50
  /\ 1 <= DEFAULT_IMAGE_QUALITY self <= 100
  /\ 5 <= REQUEST_TIMEOUT self <= 120
  /\ 300 <= SESSION_TTL self <= 86400
  /\ 1 <= RATE_LIMIT_PER_MINUTE self <= 1000
  /\ ((DEFAULT_PROCESSOR self = "photoroom" /\ ENABLE_PHOTOROOM self = true)
      \/ (DEFAULT_PROCESSOR self = "pillow" /\ ENABLE_PILLOW self = true))
  /\ LOG_LEVEL self ∈ ["DEBUG"; "INFO"; "WARNING"; "ERROR"; "CRITICAL"].

(** The errors of all the fields, in declaration order. *)
Definition all_field_errors (src : Source.t) : ValidationError :=
  (errors (at_field "TELEGRAM_BOT_TOKEN" (field_TELEGRAM_BOT_TOKEN src))
   ++ errors (at_field "PHOTOROOM_API_KEY" (field_PHOTOROOM_API_KEY src))
   ++ errors (at_field "SECRET_TOKEN" (field_SECRET_TOKEN src))
   ++ errors (at_field "HOST" (field_HOST src))
   ++ errors (at_field "PORT" (field_PORT src))
   ++ errors (at_field "WEBHOOK_URL" (field_WEBHOOK_URL src))
   ++ errors (at_field "MAX_IMAGE_SIZE_MB" (field_MAX_IMAGE_SIZE_MB src))
   ++ errors (at_field "DEFAULT_IMAGE_QUALITY" (field_DEFAULT_IMAGE_QUALITY src))
   ++ errors (at_field_each "SUPPORTED_FORMATS" (field_SUPPORTED_FORMATS src))
   ++ errors (at_field "REQUEST_TIMEOUT" (field_REQUEST_TIMEOUT src))
   ++ errors (at_field "SESSION_TTL" (field_SESSION_TTL src))
   ++ errors (at_field "RATE_LIMIT_PER_MINUTE" (field_RATE_LIMIT_PER_MINUTE src))
   ++ errors (at_field "ENABLE_PHOTOROOM" (field_ENABLE_PHOTOROOM src))
   ++ errors (at_field "ENABLE_PILLOW" (field_ENABLE_PILLOW src))
   ++ errors (at_field "DEFAULT_PROCESSOR" (field_DEFAULT_PROCESSOR src))
   ++ errors (at_field "LOG_LEVEL" (field_LOG_LEVEL src))
   ++ errors (at_field "ENABLE_FILE_LOGGING" (field_ENABLE_FILE_LOGGING src)))%list.

(** The errors of the forbidden keys, in the order of the keys. *)
Definition extra_errors (src : Source.t) : ValidationError :=
  map (fun key => (key, extra_forbidden)) (forbidden src).

(** The secrets, a port, and a text for the list field that is not JSON. *)
Definition undecodable (port : Z) : Source.t :=
  Source.make (Given example_token) (Given example_key) Unset Unset (Given port) Unset
              Unset Unset (Malformed not_json) Unset Unset Unset Unset Unset Unset Unset
              Unset [].

(** The secrets, and keys in the environment file that are no field. *)
Definition with_extra (keys : list string) : Source.t :=
  Source.make (Given example_token) (Given example_key) Unset Unset Unset Unset
              Unset Unset Unset Unset Unset Unset Unset Unset Unset Unset Unset keys.

(** The secrets, and a toggle that does not parse. *)
Definition with_unparsable_photoroom : Source.t :=
  Source.make (Given example_token) (Given example_key) Unset Unset Unset Unset
              Unset Unset Unset Unset Unset Unset (Malformed not_a_value) Unset Unset
              Unset Unset [].

(** A short token, and the key. *)
Definition with_token (token : string) : Source.t :=
  Source.make (Given token) (Given example_key) Unset Unset Unset Unset
              Unset Unset Unset Unset Unset Unset Unset Unset Unset Unset Unset [].

(** A world whose two environment files resolve differently. *)
Definition two_files (env env_test : Source.t) : World :=
  fun file => if (file =? ".env.test")%string then env_test else env.

(** A source that supplies the two secrets and nothing else. *)
Definition only_secrets (token key : string) : Source.t :=
  Source.make (Given token) (Given key) Unset Unset Unset Unset
              Unset Unset Unset Unset Unset Unset Unset Unset Unset Unset Unset [].

(** The secrets and a log level. *)
Definition with_log_level (level : string) : Source.t :=
  Source.make (Given example_token) (Given example_key) Unset Unset Unset Unset
              Unset Unset Unset Unset Unset Unset Unset Unset Unset (Given level) Unset [].

(** The secrets, and the empty value for the webhook secret, the host and
    the formats. *)
Definition with_blanks : Source.t :=
  Source.make (Given example_token) (Given example_key) (Given "") (Given "") Unset
              Unset Unset Unset (Given []) Unset Unset Unset Unset Unset Unset Unset Unset
              [].

(** An instance that some source produces. *)
Definition constructed (self : Settings) : Prop :=
  exists src, Settings_new src = inr self.

(** ** Proof steps that recur *)

(** Case split on a comparison [a <? b] that occurs in the goal or in a
    hypothesis. *)
Ltac split_ltb :=
  match goal with
  | |- context [?a <? ?b] => destruct (Z.ltb_spec a b)
  | H : context [?a <? ?b] |- _ => destruct (Z.ltb_spec a b)
  end.

(** With [lem] the way from the error of a field to the failure of the
    construction: prove that a given field is in error, by [tac] on the
    treatment of that field. *)
Ltac pick_field lem tac :=
  apply lem;
  repeat first [ left; split; [reflexivity | solve [tac]] | right ];
  try (split; [reflexivity | solve [tac]]).

(** Conversely, with [lem] the way back: from an error [H] on a named
    field, keep the one disjunct whose field has that name. *)
Ltac other_field lem H :=
  apply lem in H;
  repeat destruct H as [H|H]; destruct H as [?Hn H]; try discriminate;
  try match goal with
      | Hx : ?n ∉ _ |- _ =>
          exfalso; apply Hx; apply (bool_decide_unpack _); vm_compute; exact I
      end.

(** ** Evaluation checks *)

Example secrets_only_loads :
  Settings_new secrets_only =
  inr (Build_Settings example_token example_key "my_secret_token_123" "127.0.0.1" 8000
         None 10 85 ["JPEG"; "PNG"; "WEBP"] 30 3600 20 true true "photoroom" "INFO" true).
Proof. vm_compute. reflexivity. Qed.

Example nothing_supplied_fails :
  Settings_new Source.empty =
  inl [("TELEGRAM_BOT_TOKEN", missing); ("PHOTOROOM_API_KEY", missing)].
Proof. vm_compute. reflexivity. Qed.

Example port_999_fails :
  Settings_new (with_numeric numeric_PORT 999) = inl [("PORT", greater_than_equal 1000)].
Proof. vm_compute. reflexivity. Qed.

Example photoroom_off_by_default_fails :
  Settings_new (processors false true Unset) =
  inl [("DEFAULT_PROCESSOR", value_error photoroom_disabled_but_default)].
Proof. vm_compute. reflexivity. Qed.

Example pillow_with_photoroom_off_loads :
  exists s, Settings_new (processors false true (Given "pillow")) = inr s
            /\ DEFAULT_PROCESSOR s = "pillow" /\ ENABLE_PHOTOROOM s = false.
Proof. eexists. vm_compute. repeat split. Qed.

Example short_token_fails :
  validate_telegram_token "123:abc" = inl (value_error telegram_token_bad_format).
Proof. vm_compute. reflexivity. Qed.

Example placeholder_webhook_dropped :
  validate_webhook_url (Some "https://yourdomain.com") = inr None.
Proof. vm_compute. reflexivity. Qed.

Example first_access_prints_summary :
  get_settings (everywhere secrets_only) unloaded =
  ({| _settings_instance := Some 0%nat;
      objects := [Build_Settings example_token example_key "my_secret_token_123"
                    "127.0.0.1" 8000 None 10 85 ["JPEG"; "PNG"; "WEBP"] 30 3600 20
                    true true "photoroom" "INFO" true];
      stdout := [loaded_line; host_line "127.0.0.1"; port_line 8000;
                 telegram_bot_line true; photoroom_api_line true; webhook_line None] |},
   inr 0%nat).
Proof. vm_compute. reflexivity. Qed.

Example text_that_is_not_json_ends_the_attempt :
  Settings_new (undecodable 999) = inl [("SUPPORTED_FORMATS", settings_error)].
Proof. vm_compute. reflexivity. Qed.

Example each_item_that_is_no_string_is_reported :
  Settings_new (Source.make (Given example_token) (Given example_key) Unset Unset
                  (Given 999) Unset Unset Unset (Malformed (items_not_strings 0 [1%nat]))
                  Unset Unset Unset Unset Unset Unset Unset Unset [])
  = inl [("PORT", greater_than_equal 1000);
         ("SUPPORTED_FORMATS", string_type 0); ("SUPPORTED_FORMATS", string_type 1)].
Proof. vm_compute. reflexivity. Qed.

Example key_that_is_no_field_is_refused :
  Settings_new (with_extra ["debug"]) = inl [("debug", extra_forbidden)].
Proof. vm_compute. reflexivity. Qed.

Example key_of_a_field_is_not_extra :
  forbidden (with_extra ["PORT"; "debug"]) = ["debug"].
Proof. vm_compute. reflexivity. Qed.

(** ** Construction: one result, all errors *)

Lemma ap_errors {A B : Type} (f : validated (A -> B)) (x : validated A) :
  errors (f <*> x) = (errors f ++ errors x)%list.
Proof.
  destruct f as [e|g], x as [e'|a]; simpl; rewrite ?app_nil_r; reflexivity.
Qed.

Lemma ap_inr_inv {A B : Type} (f : validated (A -> B)) (x : validated A) (b : B) :
  f <*> x = inr b -> exists g a, f = inr g /\ x = inr a /\ b = g a.
Proof.
  destruct f as [e|g], x as [e'|a]; simpl; try discriminate.
  intros [= <-]. eauto.
Qed.

Lemma at_field_inr {A : Type} (name : string) (r : checked A) (a : A) :
  at_field name r = inr a <-> r = inr a.
Proof. destruct r; simpl; split; congruence. Qed.

Lemma at_field_each_inr {A : Type} (name : string) (r : list ErrorType + A) (a : A) :
  at_field_each name r = inr a <-> r = inr a.
Proof. destruct r; simpl; split; congruence. Qed.

Lemma in_errors_at_field {A : Type} (name : string) (r : checked A) n ty :
  In (n, ty) (errors (at_field name r)) <-> n = name /\ r = inl ty.
Proof.
  destruct r as [e|a]; simpl.
  - split.
    + intros [[= -> ->]|[]]. auto.
    + intros [-> [= ->]]. auto.
  - split; [tauto | intros [_ ?]; discriminate].
Qed.

Lemma in_errors_at_field_each {A : Type} (name : string) (r : list ErrorType + A) n ty :
  In (n, ty) (errors (at_field_each name r)) <->
  n = name /\ exists es, r = inl es /\ In ty es.
Proof.
  destruct r as [es|a]; simpl.
  - rewrite in_map_iff. split.
    + intros (ty' & [= <- <-] & Hin). eauto.
    + intros (-> & es' & [= <-] & Hin). eauto.
  - split; [tauto | intros (_ & es & [=] & _)].
Qed.

Lemma ap_nonempty {A B : Type} (f : validated (A -> B)) (x : validated A) :
  nonempty_on_failure f -> nonempty_on_failure x -> nonempty_on_failure (f <*> x).
Proof.
  destruct f as [e|g], x as [e'|a]; simpl; auto.
  intros He _ Happ. apply app_eq_nil in Happ as [? _]. auto.
Qed.

Lemma at_field_nonempty {A : Type} (name : string) (r : checked A) :
  nonempty_on_failure (at_field name r).
Proof. destruct r; simpl; [discriminate | exact I]. Qed.

Lemma field_SUPPORTED_FORMATS_nonempty (src : Source.t) :
  nonempty_on_failure (at_field_each "SUPPORTED_FORMATS" (field_SUPPORTED_FORMATS src)).
Proof.
  unfold field_SUPPORTED_FORMATS.
  destruct (Source.SUPPORTED_FORMATS src) as [|l|[| |i others]]; simpl;
    first [exact I | discriminate].
Qed.

Lemma Settings_validate_nonempty (src : Source.t) :
  nonempty_on_failure (Settings_validate src).
Proof.
  unfold Settings_validate.
  repeat (apply ap_nonempty;
          [| first [apply at_field_nonempty | apply field_SUPPORTED_FORMATS_nonempty]]).
  exact I.
Qed.

Lemma Settings_new_nonempty (src : Source.t) :
  nonempty_on_failure (Settings_new src).
Proof.
  unfold Settings_new, forbid_extra.
  pose proof (Settings_validate_nonempty src) as Hv.
  destruct (Source.SUPPORTED_FORMATS src) as [|l|[| |i others]];
    try discriminate;
    (destruct (forbidden src) as [|key keys]; [exact Hv |]);
    simpl; intros Happ; apply app_eq_nil in Happ as [_ Happ]; discriminate Happ.
Qed.

Lemma fails_at_errors {A : Type} (v : validated A) name ty :
  fails_at v name ty <-> In (name, ty) (errors v).
Proof.
  unfold fails_at. destruct v as [e|a]; simpl.
  - split; [intros (e' & [= <-] & ?); auto | eauto].
  - split; [intros (e' & [=] & _) | tauto].
Qed.

(** A source decodes or it does not. *)
Lemma decodes_dec (src : Source.t) :
  decodes src \/ Source.SUPPORTED_FORMATS src = Malformed not_json.
Proof.
  unfold decodes.
  destruct (Source.SUPPORTED_FORMATS src) as [|l|[| |i others]];
    first [right; reflexivity | left; discriminate].
Qed.

(** A source that does not decode ends the attempt with the one line of
    the [SettingsError]. *)
Lemma Settings_new_not_json (src : Source.t) :
  Source.SUPPORTED_FORMATS src = Malformed not_json ->
  Settings_new src = inl [("SUPPORTED_FORMATS", settings_error)].
Proof. intros H. unfold Settings_new. rewrite H. reflexivity. Qed.

Lemma Settings_new_decodes (src : Source.t) :
  decodes src ->
  Settings_new src = forbid_extra (forbidden src) (Settings_validate src).
Proof.
  unfold decodes, Settings_new.
  destruct (Source.SUPPORTED_FORMATS src) as [|l|[| |i others]]; congruence.
Qed.

(** The errors of a source that decodes: those of the fields, then those
    of the forbidden keys. *)
Lemma Settings_new_errors (src : Source.t) :
  decodes src ->
  errors (Settings_new src) = (errors (Settings_validate src) ++ extra_errors src)%list.
Proof.
  intros Hd. rewrite (Settings_new_decodes src Hd).
  unfold forbid_extra, extra_errors.
  destruct (forbidden src) as [|key keys]; [| reflexivity].
  simpl. rewrite app_nil_r. reflexivity.
Qed.

Lemma in_forbidden (src : Source.t) (key : string) :
  key ∈ forbidden src <-> (key ∉ field_names) /\ (key ∈ Source.extra src).
Proof. unfold forbidden. rewrite list_elem_of_filter. reflexivity. Qed.

Lemma in_extra_errors (src : Source.t) n ty :
  In (n, ty) (extra_errors src) <->
  (n ∉ field_names) /\ (n ∈ Source.extra src) /\ ty = extra_forbidden.
Proof.
  unfold extra_errors. rewrite in_map_iff. split.
  - intros (key & [= <- <-] & Hin). apply list_elem_of_In, in_forbidden in Hin. tauto.
  - intros (H1 & H2 & ->). exists n. split; [reflexivity |].
    apply list_elem_of_In, in_forbidden. auto.
Qed.

Lemma Settings_validate_fails_at (src : Source.t) (n : string) (ty : ErrorType) :
  In (n, ty) (errors (Settings_validate src)) <->
    (n = "TELEGRAM_BOT_TOKEN" /\ field_TELEGRAM_BOT_TOKEN src = inl ty)
    \/ (n = "PHOTOROOM_API_KEY" /\ field_PHOTOROOM_API_KEY src = inl ty)
    \/ (n = "SECRET_TOKEN" /\ field_SECRET_TOKEN src = inl ty)
    \/ (n = "HOST" /\ field_HOST src = inl ty)
    \/ (n = "PORT" /\ field_PORT src = inl ty)
    \/ (n = "WEBHOOK_URL" /\ field_WEBHOOK_URL src = inl ty)
    \/ (n = "MAX_IMAGE_SIZE_MB" /\ field_MAX_IMAGE_SIZE_MB src = inl ty)
    \/ (n = "DEFAULT_IMAGE_QUALITY" /\ field_DEFAULT_IMAGE_QUALITY src = inl ty)
    \/ (n = "SUPPORTED_FORMATS"
        /\ exists es, field_SUPPORTED_FORMATS src = inl es /\ In ty es)
    \/ (n = "REQUEST_TIMEOUT" /\ field_REQUEST_TIMEOUT src = inl ty)
    \/ (n = "SESSION_TTL" /\ field_SESSION_TTL src = inl ty)
    \/ (n = "RATE_LIMIT_PER_MINUTE" /\ field_RATE_LIMIT_PER_MINUTE src = inl ty)
    \/ (n = "ENABLE_PHOTOROOM" /\ field_ENABLE_PHOTOROOM src = inl ty)
    \/ (n = "ENABLE_PILLOW" /\ field_ENABLE_PILLOW src = inl ty)
    \/ (n = "DEFAULT_PROCESSOR" /\ field_DEFAULT_PROCESSOR src = inl ty)
    \/ (n = "LOG_LEVEL" /\ field_LOG_LEVEL src = inl ty)
    \/ (n = "ENABLE_FILE_LOGGING" /\ field_ENABLE_FILE_LOGGING src = inl ty).
Proof.
  unfold Settings_validate.
  rewrite !ap_errors, !in_app_iff, !in_errors_at_field, in_errors_at_field_each.
  simpl. tauto.
Qed.

(** Every line of the error of a failed construction is the error of a
    field, under the name of that field, or the refusal of a key that is
    no field. *)
Lemma Settings_new_fails_at (src : Source.t) (n : string) (ty : ErrorType) :
  fails_at (Settings_new src) n ty ->
    (n = "TELEGRAM_BOT_TOKEN" /\ field_TELEGRAM_BOT_TOKEN src = inl ty)
    \/ (n = "PHOTOROOM_API_KEY" /\ field_PHOTOROOM_API_KEY src = inl ty)
    \/ (n = "SECRET_TOKEN" /\ field_SECRET_TOKEN src = inl ty)
    \/ (n = "HOST" /\ field_HOST src = inl ty)
    \/ (n = "PORT" /\ field_PORT src = inl ty)
    \/ (n = "WEBHOOK_URL" /\ field_WEBHOOK_URL src = inl ty)
    \/ (n = "MAX_IMAGE_SIZE_MB" /\ field_MAX_IMAGE_SIZE_MB src = inl ty)
    \/ (n = "DEFAULT_IMAGE_QUALITY" /\ field_DEFAULT_IMAGE_QUALITY src = inl ty)
    \/ (n = "SUPPORTED_FORMATS"
        /\ exists es, field_SUPPORTED_FORMATS src = inl es /\ In ty es)
    \/ (n = "REQUEST_TIMEOUT" /\ field_REQUEST_TIMEOUT src = inl ty)
    \/ (n = "SESSION_TTL" /\ field_SESSION_TTL src = inl ty)
    \/ (n = "RATE_LIMIT_PER_MINUTE" /\ field_RATE_LIMIT_PER_MINUTE src = inl ty)
    \/ (n = "ENABLE_PHOTOROOM" /\ field_ENABLE_PHOTOROOM src = inl ty)
    \/ (n = "ENABLE_PILLOW" /\ field_ENABLE_PILLOW src = inl ty)
    \/ (n = "DEFAULT_PROCESSOR" /\ field_DEFAULT_PROCESSOR src = inl ty)
    \/ (n = "LOG_LEVEL" /\ field_LOG_LEVEL src = inl ty)
    \/ (n = "ENABLE_FILE_LOGGING" /\ field_ENABLE_FILE_LOGGING src = inl ty)
    \/ ((n ∉ field_names) /\ (n ∈ Source.extra src) /\ ty = extra_forbidden).
Proof.
  rewrite fails_at_errors.
  destruct (decodes_dec src) as [Hd|Hn].
  - rewrite (Settings_new_errors src Hd), in_app_iff,
      Settings_validate_fails_at, in_extra_errors. tauto.
  - rewrite (Settings_new_not_json src Hn). simpl.
    intros [[= <- <-]|[]]. do 8 right. left. split; [reflexivity |].
    exists [settings_error]. unfold field_SUPPORTED_FORMATS. rewrite Hn.
    split; [reflexivity | left; reflexivity].
Qed.

(** For a source that decodes, the error of a field is a line of the
    error of the construction. *)
Lemma Settings_new_fails_at_field (src : Source.t) (n : string) (ty : ErrorType) :
  decodes src ->
    (n = "TELEGRAM_BOT_TOKEN" /\ field_TELEGRAM_BOT_TOKEN src = inl ty)
    \/ (n = "PHOTOROOM_API_KEY" /\ field_PHOTOROOM_API_KEY src = inl ty)
    \/ (n = "SECRET_TOKEN" /\ field_SECRET_TOKEN src = inl ty)
    \/ (n = "HOST" /\ field_HOST src = inl ty)
    \/ (n = "PORT" /\ field_PORT src = inl ty)
    \/ (n = "WEBHOOK_URL" /\ field_WEBHOOK_URL src = inl ty)
    \/ (n = "MAX_IMAGE_SIZE_MB" /\ field_MAX_IMAGE_SIZE_MB src = inl ty)
    \/ (n = "DEFAULT_IMAGE_QUALITY" /\ field_DEFAULT_IMAGE_QUALITY src = inl ty)
    \/ (n = "SUPPORTED_FORMATS"
        /\ exists es, field_SUPPORTED_FORMATS src = inl es /\ In ty es)
    \/ (n = "REQUEST_TIMEOUT" /\ field_REQUEST_TIMEOUT src = inl ty)
    \/ (n = "SESSION_TTL" /\ field_SESSION_TTL src = inl ty)
    \/ (n = "RATE_LIMIT_PER_MINUTE" /\ field_RATE_LIMIT_PER_MINUTE src = inl ty)
    \/ (n = "ENABLE_PHOTOROOM" /\ field_ENABLE_PHOTOROOM src = inl ty)
    \/ (n = "ENABLE_PILLOW" /\ field_ENABLE_PILLOW src = inl ty)
    \/ (n = "DEFAULT_PROCESSOR" /\ field_DEFAULT_PROCESSOR src = inl ty)
    \/ (n = "LOG_LEVEL" /\ field_LOG_LEVEL src = inl ty)
    \/ (n = "ENABLE_FILE_LOGGING" /\ field_ENABLE_FILE_LOGGING src = inl ty) ->
  fails_at (Settings_new src) n ty.
Proof.
  intros Hd H. rewrite fails_at_errors, (Settings_new_errors src Hd), in_app_iff.
  left. apply Settings_validate_fails_at. exact H.
Qed.

(** A construction with a failing field fails, whether the source decodes
    or not. *)
Lemma failing_field_fails (src : Source.t) (n : string) (ty : ErrorType) :
  In (n, ty) (errors (Settings_validate src)) -> fails (Settings_new src).
Proof.
  intros Hin. destruct (decodes_dec src) as [Hd|Hn].
  - assert (H : In (n, ty) (errors (Settings_new src)))
      by (rewrite (Settings_new_errors src Hd), in_app_iff; auto).
    destruct (Settings_new src) as [e|s]; [exists e; reflexivity | destruct H].
  - exists [("SUPPORTED_FORMATS", settings_error)]. apply Settings_new_not_json, Hn.
Qed.

Lemma Settings_validate_inr (src : Source.t) (s : Settings) :
  Settings_validate src = inr s <->
    field_TELEGRAM_BOT_TOKEN src = inr (TELEGRAM_BOT_TOKEN s)
    /\ field_PHOTOROOM_API_KEY src = inr (PHOTOROOM_API_KEY s)
    /\ field_SECRET_TOKEN src = inr (SECRET_TOKEN s)
    /\ field_HOST src = inr (HOST s)
    /\ field_PORT src = inr (PORT s)
    /\ field_WEBHOOK_URL src = inr (WEBHOOK_URL s)
    /\ field_MAX_IMAGE_SIZE_MB src = inr (MAX_IMAGE_SIZE_MB s)
    /\ field_DEFAULT_IMAGE_QUALITY src = inr (DEFAULT_IMAGE_QUALITY s)
    /\ field_SUPPORTED_FORMATS src = inr (SUPPORTED_FORMATS s)
    /\ field_REQUEST_TIMEOUT src = inr (REQUEST_TIMEOUT s)
    /\ field_SESSION_TTL src = inr (SESSION_TTL s)
    /\ field_RATE_LIMIT_PER_MINUTE src = inr (RATE_LIMIT_PER_MINUTE s)
    /\ field_ENABLE_PHOTOROOM src = inr (ENABLE_PHOTOROOM s)
    /\ field_ENABLE_PILLOW src = inr (ENABLE_PILLOW s)
    /\ field_DEFAULT_PROCESSOR src = inr (DEFAULT_PROCESSOR s)
    /\ field_LOG_LEVEL src = inr (LOG_LEVEL s)
    /\ field_ENABLE_FILE_LOGGING src = inr (ENABLE_FILE_LOGGING s).
Proof.
  split.
  - unfold Settings_validate. intros H.
    repeat match type of H with
           | _ <*> _ = inr _ =>
               let g := fresh "g" in
               let Hx := fresh "Hx" in
               apply ap_inr_inv in H as (g & ? & H & Hx & ->);
               first [apply at_field_inr in Hx | apply at_field_each_inr in Hx]
           end.
    injection H as <-. simpl. repeat split; assumption.
  - destruct s. simpl. unfold Settings_validate.
    intros (-> & -> & -> & -> & -> & -> & -> & -> & -> & -> & -> & -> & -> & -> & -> & -> & ->).
    reflexivity.
Qed.

(** Construction succeeds exactly when every field passes and no key is
    forbidden, and the instance then holds the value each field produced. *)
Lemma Settings_new_inr (src : Source.t) (s : Settings) :
  Settings_new src = inr s <->
    field_TELEGRAM_BOT_TOKEN src = inr (TELEGRAM_BOT_TOKEN s)
    /\ field_PHOTOROOM_API_KEY src = inr (PHOTOROOM_API_KEY s)
    /\ field_SECRET_TOKEN src = inr (SECRET_TOKEN s)
    /\ field_HOST src = inr (HOST s)
    /\ field_PORT src = inr (PORT s)
    /\ field_WEBHOOK_URL src = inr (WEBHOOK_URL s)
    /\ field_MAX_IMAGE_SIZE_MB src = inr (MAX_IMAGE_SIZE_MB s)
    /\ field_DEFAULT_IMAGE_QUALITY src = inr (DEFAULT_IMAGE_QUALITY s)
    /\ field_SUPPORTED_FORMATS src = inr (SUPPORTED_FORMATS s)
    /\ field_REQUEST_TIMEOUT src = inr (REQUEST_TIMEOUT s)
    /\ field_SESSION_TTL src = inr (SESSION_TTL s)
    /\ field_RATE_LIMIT_PER_MINUTE src = inr (RATE_LIMIT_PER_MINUTE s)
    /\ field_ENABLE_PHOTOROOM src = inr (ENABLE_PHOTOROOM s)
    /\ field_ENABLE_PILLOW src = inr (ENABLE_PILLOW s)
    /\ field_DEFAULT_PROCESSOR src = inr (DEFAULT_PROCESSOR s)
    /\ field_LOG_LEVEL src = inr (LOG_LEVEL s)
    /\ field_ENABLE_FILE_LOGGING src = inr (ENABLE_FILE_LOGGING s)
    /\ forbidden src = [].
Proof.
  destruct (decodes_dec src) as [Hd|Hn].
  - rewrite (Settings_new_decodes src Hd). unfold forbid_extra.
    destruct (forbidden src) as [|key keys].
    + rewrite Settings_validate_inr. intuition.
    + split; [discriminate | intros H; decompose [and] H; discriminate].
  - rewrite (Settings_new_not_json src Hn).
    split; [discriminate |]. intros H. decompose [and] H.
    unfold field_SUPPORTED_FORMATS in *. rewrite Hn in *. discriminate.
Qed.

(** The error of a field makes construction fail whatever else the source
    holds, and is a line of what is raised when the source decodes. *)
Lemma Settings_new_field_error (src : Source.t) (n : string) (ty : ErrorType) :
    (n = "TELEGRAM_BOT_TOKEN" /\ field_TELEGRAM_BOT_TOKEN src = inl ty)
    \/ (n = "PHOTOROOM_API_KEY" /\ field_PHOTOROOM_API_KEY src = inl ty)
    \/ (n = "SECRET_TOKEN" /\ field_SECRET_TOKEN src = inl ty)
    \/ (n = "HOST" /\ field_HOST src = inl ty)
    \/ (n = "PORT" /\ field_PORT src = inl ty)
    \/ (n = "WEBHOOK_URL" /\ field_WEBHOOK_URL src = inl ty)
    \/ (n = "MAX_IMAGE_SIZE_MB" /\ field_MAX_IMAGE_SIZE_MB src = inl ty)
    \/ (n = "DEFAULT_IMAGE_QUALITY" /\ field_DEFAULT_IMAGE_QUALITY src = inl ty)
    \/ (n = "SUPPORTED_FORMATS"
        /\ exists es, field_SUPPORTED_FORMATS src = inl es /\ In ty es)
    \/ (n = "REQUEST_TIMEOUT" /\ field_REQUEST_TIMEOUT src = inl ty)
    \/ (n = "SESSION_TTL" /\ field_SESSION_TTL src = inl ty)
    \/ (n = "RATE_LIMIT_PER_MINUTE" /\ field_RATE_LIMIT_PER_MINUTE src = inl ty)
    \/ (n = "ENABLE_PHOTOROOM" /\ field_ENABLE_PHOTOROOM src = inl ty)
    \/ (n = "ENABLE_PILLOW" /\ field_ENABLE_PILLOW src = inl ty)
    \/ (n = "DEFAULT_PROCESSOR" /\ field_DEFAULT_PROCESSOR src = inl ty)
    \/ (n = "LOG_LEVEL" /\ field_LOG_LEVEL src = inl ty)
    \/ (n = "ENABLE_FILE_LOGGING" /\ field_ENABLE_FILE_LOGGING src = inl ty) ->
  fails (Settings_new src)
  /\ (decodes src -> fails_at (Settings_new src) n ty).
Proof.
  intros H. split.
  - apply (failing_field_fails src n ty), Settings_validate_fails_at, H.
  - intros Hd. apply Settings_new_fails_at_field; assumption.
Qed.

(** ** The [values] dictionary seen by [validate_default_processor] *)

Lemma lookup_record_ne {E A : Type} (name key : string) (inj : A -> value)
    (r : E + A) (values : gmap string value) :
  name <> key -> record name inj r values !! key = values !! key.
Proof.
  intros Hne. unfold record. destruct r; [reflexivity |].
  by rewrite lookup_insert_ne.
Qed.

Lemma lookup_record_eq {E A : Type} (key : string) (inj : A -> value)
    (r : E + A) (values : gmap string value) :
  record key inj r values !! key =
  match r with
  | inr a => Some (inj a)
  | inl _ => values !! key
  end.
Proof. unfold record. destruct r; [reflexivity |]. apply lookup_insert_eq. Qed.

(** A toggle is in the dictionary exactly when it validated. *)
Lemma values_ENABLE_PHOTOROOM (src : Source.t) :
  values_before_DEFAULT_PROCESSOR src !! "ENABLE_PHOTOROOM" =
  match field_ENABLE_PHOTOROOM src with
  | inr b => Some (VBool b)
  | inl _ => None
  end.
Proof.
  unfold values_before_DEFAULT_PROCESSOR.
  rewrite lookup_record_ne by discriminate.
  rewrite lookup_record_eq.
  destruct (field_ENABLE_PHOTOROOM src); [| reflexivity].
  rewrite !lookup_record_ne by discriminate. apply lookup_empty.
Qed.

Lemma values_ENABLE_PILLOW (src : Source.t) :
  values_before_DEFAULT_PROCESSOR src !! "ENABLE_PILLOW" =
  match field_ENABLE_PILLOW src with
  | inr b => Some (VBool b)
  | inl _ => None
  end.
Proof.
  unfold values_before_DEFAULT_PROCESSOR.
  rewrite lookup_record_eq.
  destruct (field_ENABLE_PILLOW src); [| reflexivity].
  rewrite !lookup_record_ne by discriminate. apply lookup_empty.
Qed.

(** What the validator reads: the toggle, or [True] when the toggle itself
    did not validate. *)
Lemma get_ENABLE_PHOTOROOM (src : Source.t) :
  truthy (get (values_before_DEFAULT_PROCESSOR src) "ENABLE_PHOTOROOM" (VBool true)) =
  match field_ENABLE_PHOTOROOM src with
  | inr b => b
  | inl _ => true
  end.
Proof.
  unfold get. rewrite values_ENABLE_PHOTOROOM.
  destruct (field_ENABLE_PHOTOROOM src); reflexivity.
Qed.

Lemma get_ENABLE_PILLOW (src : Source.t) :
  truthy (get (values_before_DEFAULT_PROCESSOR src) "ENABLE_PILLOW" (VBool true)) =
  match field_ENABLE_PILLOW src with
  | inr b => b
  | inl _ => true
  end.
Proof.
  unfold get. rewrite values_ENABLE_PILLOW.
  destruct (field_ENABLE_PILLOW src); reflexivity.
Qed.

(** The treatment of [DEFAULT_PROCESSOR], case by case on the chosen value. *)
Lemma field_DEFAULT_PROCESSOR_photoroom (src : Source.t) :
  with_default "photoroom" (Source.DEFAULT_PROCESSOR src) = inr "photoroom" ->
  field_DEFAULT_PROCESSOR src =
  match field_ENABLE_PHOTOROOM src with
  | inr false => inl (value_error photoroom_disabled_but_default)
  | _ => inr "photoroom"
  end.
Proof.
  intros Hv. unfold field_DEFAULT_PROCESSOR. rewrite Hv.
  cbn [and_then]. change (pattern ["photoroom"; "pillow"] "photoroom") with (@inr ErrorType _ "photoroom").
  cbn [and_then]. unfold validate_default_processor.
  rewrite get_ENABLE_PHOTOROOM.
  destruct (field_ENABLE_PHOTOROOM src) as [e|[|]]; reflexivity.
Qed.

Lemma field_DEFAULT_PROCESSOR_pillow (src : Source.t) :
  with_default "photoroom" (Source.DEFAULT_PROCESSOR src) = inr "pillow" ->
  field_DEFAULT_PROCESSOR src =
  match field_ENABLE_PILLOW src with
  | inr false => inl (value_error pillow_disabled_but_default)
  | _ => inr "pillow"
  end.
Proof.
  intros Hv. unfold field_DEFAULT_PROCESSOR. rewrite Hv.
  cbn [and_then]. change (pattern ["photoroom"; "pillow"] "pillow") with (@inr ErrorType _ "pillow").
  cbn [and_then]. unfold validate_default_processor.
  rewrite get_ENABLE_PILLOW.
  destruct (field_ENABLE_PILLOW src) as [e|[|]]; reflexivity.
Qed.

(** ** The default processor and its toggle *)

(** C1, as the code has it. Whatever else the source holds, when the
    default processor (the one supplied, or the declared default) is
    ['photoroom'] and [ENABLE_PHOTOROOM] resolved to false, construction
    fails, and what is raised names [DEFAULT_PROCESSOR] whenever the
    source decodes; likewise for ['pillow'] and [ENABLE_PILLOW]. When
    every other field is valid, the toggle of the chosen default processor
    resolved to true and the environment file holds no key that is no
    field, construction succeeds and keeps the choice. *)
Theorem default_processor_requires_its_toggle (src : Source.t) :
  (with_default "photoroom" (Source.DEFAULT_PROCESSOR src) = inr "photoroom" ->
   field_ENABLE_PHOTOROOM src = inr false ->
   fails (Settings_new src)
   /\ (decodes src ->
       fails_at (Settings_new src) "DEFAULT_PROCESSOR"
                (value_error photoroom_disabled_but_default)))
  /\ (with_default "photoroom" (Source.DEFAULT_PROCESSOR src) = inr "pillow" ->
      field_ENABLE_PILLOW src = inr false ->
      fails (Settings_new src)
      /\ (decodes src ->
          fails_at (Settings_new src) "DEFAULT_PROCESSOR"
                   (value_error pillow_disabled_but_default)))
  /\ (fields_around_DEFAULT_PROCESSOR_pass src ->
      forbidden src = [] ->
      forall v : string,
        with_default "photoroom" (Source.DEFAULT_PROCESSOR src) = inr v ->
        (v = "photoroom" /\ field_ENABLE_PHOTOROOM src = inr true)
        \/ (v = "pillow" /\ field_ENABLE_PILLOW src = inr true) ->
        exists s, Settings_new src = inr s /\ DEFAULT_PROCESSOR s = v).
Proof.
  split; [| split].
  - intros Hv Hoff. apply Settings_new_field_error.
    do 14 right. left. split; [reflexivity |].
    rewrite (field_DEFAULT_PROCESSOR_photoroom src Hv), Hoff. reflexivity.
  - intros Hv Hoff. apply Settings_new_field_error.
    do 14 right. left. split; [reflexivity |].
    rewrite (field_DEFAULT_PROCESSOR_pillow src Hv), Hoff. reflexivity.
  - intros Hothers Hextra v Hv Hon.
    assert (Hdp : field_DEFAULT_PROCESSOR src = inr v).
    { destruct Hon as [[-> Hon]|[-> Hon]].
      - rewrite (field_DEFAULT_PROCESSOR_photoroom src Hv), Hon. reflexivity.
      - rewrite (field_DEFAULT_PROCESSOR_pillow src Hv), Hon. reflexivity. }
    destruct Hothers as ([a1 H1] & [a2 H2] & [a3 H3] & [a4 H4] & [a5 H5] & [a6 H6]
      & [a7 H7] & [a8 H8] & [a9 H9] & [a10 H10] & [a11 H11] & [a12 H12]
      & [a13 H13] & [a14 H14] & [a16 H16] & [a17 H17]).
    exists (Build_Settings a1 a2 a3 a4 a5 a6 a7 a8 a9 a10 a11 a12 a13 a14 v a16 a17).
    split; [| reflexivity].
    apply Settings_new_inr. simpl. repeat split; assumption.
Qed.

Lemma default_processor_requires_its_toggle_witness :
  fails_at (Settings_new (processors false true Unset)) "DEFAULT_PROCESSOR"
           (value_error photoroom_disabled_but_default)
  /\ fails_at (Settings_new (processors true false (Given "pillow"))) "DEFAULT_PROCESSOR"
              (value_error pillow_disabled_but_default)
  /\ exists s, Settings_new (processors true false Unset) = inr s
               /\ DEFAULT_PROCESSOR s = "photoroom".
Proof.
  split; [| split].
  - apply (proj1 (default_processor_requires_its_toggle (processors false true Unset)));
      first [reflexivity | discriminate].
  - apply (proj1 (proj2 (default_processor_requires_its_toggle
                           (processors true false (Given "pillow")))));
      first [reflexivity | discriminate].
  - apply (proj2 (proj2 (default_processor_requires_its_toggle
                           (processors true false Unset)))).
    + repeat split; eexists; reflexivity.
    + reflexivity.
    + reflexivity.
    + left. split; reflexivity.
Defined.

(** C1 without the condition on the keys does not hold: with every field
    valid and the default processor ['photoroom'] with its toggle on, a
    key in the environment file that is no field makes construction
    fail. *)
Lemma default_processor_valid_but_extra_key :
  fields_around_DEFAULT_PROCESSOR_pass (with_extra ["debug"])
  /\ with_default "photoroom" (Source.DEFAULT_PROCESSOR (with_extra ["debug"]))
     = inr "photoroom"
  /\ field_ENABLE_PHOTOROOM (with_extra ["debug"]) = inr true
  /\ Settings_new (with_extra ["debug"]) = inl [("debug", extra_forbidden)].
Proof.
  split; [repeat split; eexists; reflexivity |].
  split; [reflexivity |]. split; [reflexivity |].
  vm_compute. reflexivity.
Qed.

(** ** Development mode *)

Lemma bool_decide_or_true (P Q : Prop) `{Decision P} `{Decision Q} :
  bool_decide P || bool_decide Q = true <-> P \/ Q.
Proof.
  rewrite orb_true_iff, !bool_decide_eq_true. reflexivity.
Qed.

(** C2, as the code has it. The development-mode predicate is true exactly
    when the host is ['127.0.0.1'] or ['localhost'], or the port is 8000 or
    8080. *)
Theorem is_development_iff (self : Settings) :
  is_development self = true <->
    HOST self = "127.0.0.1" \/ HOST self = "localhost"
    \/ PORT self = 8000 \/ PORT self = 8080.
Proof.
  unfold is_development. rewrite bool_decide_or_true.
  rewrite !elem_of_cons, !elem_of_nil. tauto.
Qed.

(** C2 without ['localhost'] does not hold: a validly constructed instance
    with host ['localhost'] and port 9000 is in development mode although
    its host is not ['127.0.0.1'] and its port is neither 8000 nor 8080. *)
Lemma is_development_localhost_9000 :
  exists self,
    Settings_new (served_at "localhost" 9000) = inr self
    /\ is_development self = true
    /\ HOST self <> "127.0.0.1" /\ PORT self <> 8000 /\ PORT self <> 8080.
Proof.
  eexists. split; [vm_compute; reflexivity |].
  repeat split; try discriminate. 
Qed.

(** ** The webhook URL *)

Lemma validate_webhook_url_Some (u : string) :
  validate_webhook_url (Some u) =
  inr (if String.prefix "https://yourdomain" u then None else Some u).
Proof.
  unfold validate_webhook_url.
  destruct u as [|c u]; [reflexivity |].
  cbn [String.eqb negb andb].
  destruct (String.prefix "https://yourdomain" (String c u)); reflexivity.
Qed.

(** C3. A supplied webhook URL never makes construction fail. In the
    constructed instance a URL that starts with ['https://yourdomain'] has
    become [None], any other supplied URL is kept as it is, and so no URL
    an instance shows starts with the placeholder prefix. *)
Theorem webhook_url_placeholder_is_dropped (src : Source.t) (u : string) :
  Source.WEBHOOK_URL src = Given u ->
  ~ blames (Settings_new src) "WEBHOOK_URL"
  /\ forall self, Settings_new src = inr self ->
       (String.prefix "https://yourdomain" u = true -> WEBHOOK_URL self = None)
       /\ (String.prefix "https://yourdomain" u = false -> WEBHOOK_URL self = Some u)
       /\ (forall shown, WEBHOOK_URL self = Some shown ->
             String.prefix "https://yourdomain" shown = false).
Proof.
  intros Hu.
  assert (Hf : field_WEBHOOK_URL src =
               inr (if String.prefix "https://yourdomain" u then None else Some u)).
  { unfold field_WEBHOOK_URL. rewrite Hu. apply validate_webhook_url_Some. }
  split.
  - intros [ty H]. other_field Settings_new_fails_at H. congruence.
  - intros self Hs. apply Settings_new_inr in Hs.
    destruct Hs as (_ & _ & _ & _ & _ & Hw & _).
    rewrite Hf in Hw. injection Hw as Hw.
    destruct (String.prefix "https://yourdomain" u) eqn:Hp; rewrite <- Hw.
    + repeat split; [discriminate | discriminate].
    + repeat split; [discriminate | congruence].
Qed.

Lemma webhook_url_placeholder_is_dropped_witness :
  (exists self, Settings_new (with_webhook "https://yourdomain.example") = inr self
                /\ WEBHOOK_URL self = None)
  /\ (exists self, Settings_new (with_webhook "https://bot.example.org/hook") = inr self
                   /\ WEBHOOK_URL self = Some "https://bot.example.org/hook").
Proof.
  split.
  - eexists. split; [vm_compute; reflexivity |].
    apply (proj2 (webhook_url_placeholder_is_dropped
                    (with_webhook "https://yourdomain.example")
                    "https://yourdomain.example" eq_refl) _ eq_refl).
    reflexivity.
  - eexists. split; [vm_compute; reflexivity |].
    apply (proj2 (webhook_url_placeholder_is_dropped
                    (with_webhook "https://bot.example.org/hook")
                    "https://bot.example.org/hook" eq_refl) _ eq_refl).
    reflexivity.
Defined.

(** ** The two secrets *)

(** [':' in v] holds exactly when the character occurs in [v]. *)
Lemma str_in_colon (v : string) :
  str_in ":" v = true <-> In ":"%char (list_ascii_of_string v).
Proof.
  induction v as [|c v IH]; [simpl; split; [discriminate | tauto] |].
  cbn [str_in String.prefix list_ascii_of_string In].
  rewrite orb_true_iff, IH.
  destruct (Ascii.ascii_dec ":" c) as [<-|Hne].
  - destruct v; simpl; tauto.
  - split; [intros [H|H]; [discriminate H | auto] | intros [H|H]; [congruence | auto]].
Qed.

Lemma validate_telegram_token_inr (v v' : string) :
  validate_telegram_token v = inr v' <->
    v' = v /\ v <> "" /\ v <> "your_telegram_bot_token_here"
    /\ str_in ":" v = true /\ 30 <= len v.
Proof.
  unfold validate_telegram_token.
  destruct (String.eqb_spec v "") as [->|Hne];
    [split; [discriminate | intros (_ & H & _); congruence] |].
  destruct (String.eqb_spec v "your_telegram_bot_token_here") as [->|Hnp];
    [split; [discriminate | intros (_ & _ & H & _); congruence] |].
  cbn [orb].
  destruct (str_in ":" v); cbn [negb orb].
  - destruct (Z.ltb_spec (len v) 30).
    + split; [discriminate | intros (_ & _ & _ & _ & ?); lia].
    + split; [intros [= <-]; auto | intros (-> & _); reflexivity].
  - split; [discriminate | intros (_ & _ & _ & H & _); discriminate H].
Qed.

Lemma validate_photoroom_key_inr (v v' : string) :
  validate_photoroom_key v = inr v' <->
    v' = v /\ v <> "" /\ v <> "your_photoroom_api_key_here".
Proof.
  unfold validate_photoroom_key.
  destruct (String.eqb_spec v "") as [->|Hne];
    [split; [discriminate | intros (_ & H & _); congruence] |].
  destruct (String.eqb_spec v "your_photoroom_api_key_here") as [->|Hnp];
    [split; [discriminate | intros (_ & _ & H); congruence] |].
  cbn [orb]. split; [intros [= <-]; auto | intros (-> & _); reflexivity].
Qed.

Lemma field_TELEGRAM_BOT_TOKEN_inr (src : Source.t) (v : string) :
  field_TELEGRAM_BOT_TOKEN src = inr v <->
    Source.TELEGRAM_BOT_TOKEN src = Given v /\ v <> ""
    /\ v <> "your_telegram_bot_token_here" /\ str_in ":" v = true /\ 30 <= len v.
Proof.
  unfold field_TELEGRAM_BOT_TOKEN.
  destruct (Source.TELEGRAM_BOT_TOKEN src) as [|a|]; cbn [required and_then].
  - split; [discriminate | intros [[=] _]].
  - rewrite validate_telegram_token_inr.
    split; [intros (-> & ?); auto | intros ([= ->] & ?); auto].
  - split; [discriminate | intros [[=] _]].
Qed.

Lemma field_PHOTOROOM_API_KEY_inr (src : Source.t) (v : string) :
  field_PHOTOROOM_API_KEY src = inr v <->
    Source.PHOTOROOM_API_KEY src = Given v /\ v <> ""
    /\ v <> "your_photoroom_api_key_here".
Proof.
  unfold field_PHOTOROOM_API_KEY.
  destruct (Source.PHOTOROOM_API_KEY src) as [|a|]; cbn [required and_then].
  - split; [discriminate | intros [[=] _]].
  - rewrite validate_photoroom_key_inr.
    split; [intros (-> & ?); auto | intros ([= ->] & ?); auto].
  - split; [discriminate | intros [[=] _]].
Qed.

(** C4. Whatever the other fields hold, construction fails when the token
    is missing, empty, the placeholder, has no [':'] or is shorter than 30
    characters, and when the key is missing, empty or the placeholder;
    what is raised names [TELEGRAM_BOT_TOKEN], respectively
    [PHOTOROOM_API_KEY], whenever the source decodes. An instance that was
    constructed holds the supplied token and key, and both are well
    formed. *)
Theorem secrets_are_required_and_well_formed (src : Source.t) :
  (Source.TELEGRAM_BOT_TOKEN src = Unset
   \/ Source.TELEGRAM_BOT_TOKEN src = Given ""
   \/ Source.TELEGRAM_BOT_TOKEN src = Given "your_telegram_bot_token_here"
   \/ (exists v, Source.TELEGRAM_BOT_TOKEN src = Given v
                 /\ (str_in ":" v = false \/ len v < 30)) ->
   fails (Settings_new src)
   /\ (decodes src -> blames (Settings_new src) "TELEGRAM_BOT_TOKEN"))
  /\ (Source.PHOTOROOM_API_KEY src = Unset
      \/ Source.PHOTOROOM_API_KEY src = Given ""
      \/ Source.PHOTOROOM_API_KEY src = Given "your_photoroom_api_key_here" ->
      fails (Settings_new src)
      /\ (decodes src -> blames (Settings_new src) "PHOTOROOM_API_KEY"))
  /\ (forall self, Settings_new src = inr self ->
        Source.TELEGRAM_BOT_TOKEN src = Given (TELEGRAM_BOT_TOKEN self)
        /\ TELEGRAM_BOT_TOKEN self <> ""
        /\ TELEGRAM_BOT_TOKEN self <> "your_telegram_bot_token_here"
        /\ str_in ":" (TELEGRAM_BOT_TOKEN self) = true
        /\ 30 <= len (TELEGRAM_BOT_TOKEN self)
        /\ Source.PHOTOROOM_API_KEY src = Given (PHOTOROOM_API_KEY self)
        /\ PHOTOROOM_API_KEY self <> ""
        /\ PHOTOROOM_API_KEY self <> "your_photoroom_api_key_here").
Proof.
  split; [| split].
  - intros Hbad.
    destruct (field_TELEGRAM_BOT_TOKEN src) as [ty|v] eqn:Hf.
    + destruct (Settings_new_field_error src "TELEGRAM_BOT_TOKEN" ty) as [Hfails Hat];
        [left; auto |].
      split; [exact Hfails | intros Hd; exists ty; auto].
    + exfalso. apply field_TELEGRAM_BOT_TOKEN_inr in Hf as (Hg & Hne & Hnp & Hc & Hl).
      destruct Hbad as [H|[H|[H|(v' & H & Hv')]]]; rewrite Hg in H;
        try discriminate H; injection H as H; subst; try congruence.
      destruct Hv' as [Hv'|Hv']; [congruence | lia].
  - intros Hbad.
    destruct (field_PHOTOROOM_API_KEY src) as [ty|v] eqn:Hf.
    + destruct (Settings_new_field_error src "PHOTOROOM_API_KEY" ty) as [Hfails Hat];
        [right; left; auto |].
      split; [exact Hfails | intros Hd; exists ty; auto].
    + exfalso. apply field_PHOTOROOM_API_KEY_inr in Hf as (Hg & Hne & Hnp).
      destruct Hbad as [H|[H|H]]; rewrite Hg in H;
        try discriminate H; injection H as H; subst; congruence.
  - intros self Hs. apply Settings_new_inr in Hs as (Ht & Hk & _).
    apply field_TELEGRAM_BOT_TOKEN_inr in Ht. apply field_PHOTOROOM_API_KEY_inr in Hk.
    tauto.
Qed.

Lemma secrets_are_required_and_well_formed_witness :
  blames (Settings_new (with_token "123:abc")) "TELEGRAM_BOT_TOKEN"
  /\ blames (Settings_new Source.empty) "PHOTOROOM_API_KEY"
  /\ fails (Settings_new
              (Source.make Unset Unset Unset Unset Unset Unset Unset Unset
                 (Malformed not_json) Unset Unset Unset Unset Unset Unset Unset Unset []))
  /\ TELEGRAM_BOT_TOKEN
       (Build_Settings example_token example_key "my_secret_token_123" "127.0.0.1" 8000
          None 10 85 ["JPEG"; "PNG"; "WEBP"] 30 3600 20 true true "photoroom" "INFO" true)
     <> "".
Proof.
  split; [| split; [| split]].
  - apply (proj1 (secrets_are_required_and_well_formed (with_token "123:abc"))).
    + do 3 right. exists "123:abc". split; [reflexivity |]. right. reflexivity.
    + discriminate.
  - apply (proj1 (proj2 (secrets_are_required_and_well_formed Source.empty))).
    + left. reflexivity.
    + discriminate.
  - apply (proj1 (secrets_are_required_and_well_formed
                    (Source.make Unset Unset Unset Unset Unset Unset Unset Unset
                       (Malformed not_json) Unset Unset Unset Unset Unset Unset Unset
                       Unset []))).
    left. reflexivity.
  - apply (proj2 (proj2 (secrets_are_required_and_well_formed secrets_only)) _
             secrets_only_loads).
Defined.

(** ** The numeric fields *)

(** A supplied number goes through [ge] and then [le]. *)
Lemma range_check {D : Type} (d lo hi v : Z) (r : raw D Z) :
  r = Given v ->
  with_default d r >>= ge lo >>= le hi =
  if v <? lo then inl (greater_than_equal lo)
  else if hi <? v then inl (less_than_equal hi)
  else inr v.
Proof.
  intros ->. cbn [with_default and_then]. unfold ge, le.
  destruct (v <? lo); reflexivity.
Qed.

(** A constructed instance holds the number the source supplied. *)
Lemma numeric_attribute_supplied (f : NumericField) (src : Source.t) (v : Z)
    (self : Settings) :
  numeric_supplied f src = Given v ->
  Settings_new src = inr self ->
  numeric_attribute f self = v.
Proof.
  intros Hv Hs.
  apply Settings_new_inr in Hs
    as (_ & _ & _ & _ & H5 & _ & H7 & H8 & _ & H10 & H11 & H12 & _).
  unfold field_PORT, field_MAX_IMAGE_SIZE_MB, field_DEFAULT_IMAGE_QUALITY,
    field_REQUEST_TIMEOUT, field_SESSION_TTL, field_RATE_LIMIT_PER_MINUTE in *.
  destruct f; cbn [numeric_supplied numeric_attribute] in *;
    match goal with
    | H : with_default _ ?r >>= _ >>= _ = inr ?x, Hv : ?r = Given v |- ?x = v =>
        rewrite (range_check _ _ _ v _ Hv) in H;
        destruct (v <? _); [discriminate H |];
        destruct (_ <? v); [discriminate H |];
        injection H as H; symmetry; exact H
    end.
Qed.

(** C5, as the code has it. For each numeric field and each supplied
    value [v]: below the declared minimum construction fails, and what is
    raised names the field with the violated lower bound whenever the
    source decodes; above the declared maximum, likewise with the upper
    bound; inside the declared range, no error ever names the field, a
    failure of construction is due to something else, and a constructed
    instance holds exactly [v]. *)
Theorem numeric_field_range (f : NumericField) (src : Source.t) (v : Z) :
  numeric_supplied f src = Given v ->
  (v < fst (declared_range f) ->
   fails (Settings_new src)
   /\ (decodes src ->
       fails_at (Settings_new src) (numeric_name f)
                (greater_than_equal (fst (declared_range f)))))
  /\ (snd (declared_range f) < v ->
      fails (Settings_new src)
      /\ (decodes src ->
          fails_at (Settings_new src) (numeric_name f)
                   (less_than_equal (snd (declared_range f)))))
  /\ (fst (declared_range f) <= v <= snd (declared_range f) ->
      ~ blames (Settings_new src) (numeric_name f)
      /\ (forall e, Settings_new src = inl e ->
            exists n ty, In (n, ty) e /\ n <> numeric_name f)
      /\ (forall self, Settings_new src = inr self -> numeric_attribute f self = v)).
Proof.
  intros Hv.
  assert (Hin : fst (declared_range f) <= v <= snd (declared_range f) ->
                ~ blames (Settings_new src) (numeric_name f)).
  { intros Hr [ty H].
    destruct f; cbn [numeric_supplied numeric_name declared_range fst snd] in *;
      other_field Settings_new_fails_at H;
      unfold field_PORT, field_MAX_IMAGE_SIZE_MB, field_DEFAULT_IMAGE_QUALITY,
        field_REQUEST_TIMEOUT, field_SESSION_TTL, field_RATE_LIMIT_PER_MINUTE in H;
      rewrite (range_check _ _ _ v _ Hv) in H;
      split_ltb; try lia; split_ltb; try lia; discriminate H. }
  split; [| split].
  - intros Hlo.
    destruct f; cbn [numeric_supplied numeric_name declared_range fst snd] in *;
      pick_field Settings_new_field_error ltac:(
        unfold field_PORT, field_MAX_IMAGE_SIZE_MB, field_DEFAULT_IMAGE_QUALITY,
          field_REQUEST_TIMEOUT, field_SESSION_TTL, field_RATE_LIMIT_PER_MINUTE;
        rewrite (range_check _ _ _ v _ Hv);
        split_ltb; try lia; reflexivity).
  - intros Hhi.
    destruct f; cbn [numeric_supplied numeric_name declared_range fst snd] in *;
      pick_field Settings_new_field_error ltac:(
        unfold field_PORT, field_MAX_IMAGE_SIZE_MB, field_DEFAULT_IMAGE_QUALITY,
          field_REQUEST_TIMEOUT, field_SESSION_TTL, field_RATE_LIMIT_PER_MINUTE;
        rewrite (range_check _ _ _ v _ Hv);
        split_ltb; try lia; split_ltb; try lia; reflexivity).
  - intros Hr. split; [auto | split].
    + intros e He. pose proof (Settings_new_nonempty src) as Hne.
      rewrite He in Hne. simpl in Hne.
      destruct e as [|[n ty] e]; [congruence |].
      exists n, ty. split; [left; reflexivity |].
      intros ->. apply (Hin Hr). exists ty, ((numeric_name f, ty) :: e).
      split; [assumption | left; reflexivity].
    + intros self Hs. exact (numeric_attribute_supplied f src v self Hv Hs).
Qed.

Lemma numeric_field_range_witness :
  fails_at (Settings_new (with_numeric numeric_PORT 999)) "PORT" (greater_than_equal 1000)
  /\ fails_at (Settings_new (with_numeric numeric_SESSION_TTL 86401)) "SESSION_TTL"
              (less_than_equal 86400)
  /\ fails (Settings_new (undecodable 999))
  /\ exists self, Settings_new (with_numeric numeric_MAX_IMAGE_SIZE_MB 50) = inr self
                  /\ MAX_IMAGE_SIZE_MB self = 50.
Proof.
  split; [| split; [| split]].
  - apply (proj1 (numeric_field_range numeric_PORT
                    (with_numeric numeric_PORT 999) 999 eq_refl)).
    + simpl. lia.
    + discriminate.
  - apply (proj1 (proj2 (numeric_field_range numeric_SESSION_TTL
                           (with_numeric numeric_SESSION_TTL 86401) 86401 eq_refl))).
    + simpl. lia.
    + discriminate.
  - apply (proj1 (numeric_field_range numeric_PORT (undecodable 999) 999 eq_refl)).
    simpl. lia.
  - eexists. split; [vm_compute; reflexivity |].
    refine (proj2 (proj2 (proj2 (proj2 (numeric_field_range numeric_MAX_IMAGE_SIZE_MB
              (with_numeric numeric_MAX_IMAGE_SIZE_MB 50) 50 eq_refl)) _)) _ eq_refl).
    simpl. lia.
Defined.

(** C5 for every source does not hold: with port 999 and a text for the
    list field that is not JSON, construction fails, but what is raised
    names [SUPPORTED_FORMATS] alone and not [PORT]. *)
Lemma port_below_minimum_but_undecodable :
  numeric_supplied numeric_PORT (undecodable 999) = Given 999
  /\ 999 < fst (declared_range numeric_PORT)
  /\ Settings_new (undecodable 999) = inl [("SUPPORTED_FORMATS", settings_error)]
  /\ ~ blames (Settings_new (undecodable 999)) "PORT".
Proof.
  split; [reflexivity |]. split; [simpl; lia |]. split; [reflexivity |].
  intros (ty & e & [= <-] & [[=]|[]]).
Qed.

(** ** Image size *)

Lemma range_check_inr {D : Type} (d lo hi x : Z) (r : raw D Z) :
  with_default d r >>= ge lo >>= le hi = inr x ->
  lo <= x <= hi /\ (r = Given x \/ (r = Unset /\ x = d)).
Proof.
  destruct r as [|a|]; cbn [with_default and_then]; [| | discriminate];
    unfold ge, le; intros H;
    split_ltb; try discriminate H; cbn [and_then] in H;
    split_ltb; try discriminate H; injection H as <-; split; auto; lia.
Qed.

(** C8. In every instance [max_image_size_bytes] is [MAX_IMAGE_SIZE_MB]
    times 1,048,576. A constructed instance has its [MAX_IMAGE_SIZE_MB] in
    [[1,50]]; when the source supplies [m], the property is [m] times
    1,048,576, and when it supplies nothing the property is 10,485,760. *)
Theorem max_image_size_bytes_of_MB (src : Source.t) (self : Settings) :
  Settings_new src = inr self ->
  1 <= MAX_IMAGE_SIZE_MB self <= 50
  /\ max_image_size_bytes self = MAX_IMAGE_SIZE_MB self * 1048576
  /\ (forall m, Source.MAX_IMAGE_SIZE_MB src = Given m ->
        1 <= m <= 50 /\ max_image_size_bytes self = m * 1048576)
  /\ (Source.MAX_IMAGE_SIZE_MB src = Unset -> max_image_size_bytes self = 10485760).
Proof.
  intros Hs. apply Settings_new_inr in Hs as (_ & _ & _ & _ & _ & _ & H7 & _).
  unfold field_MAX_IMAGE_SIZE_MB in H7.
  apply range_check_inr in H7 as [Hr Hsrc].
  unfold max_image_size_bytes.
  split; [exact Hr | split; [lia | split]].
  - intros m Hm. destruct Hsrc as [Hg|[Hu _]]; [| congruence].
    rewrite Hm in Hg. injection Hg as ->. split; [exact Hr | lia].
  - intros Hu. destruct Hsrc as [Hg|[_ ->]]; [congruence | reflexivity].
Qed.

Lemma max_image_size_bytes_of_MB_witness :
  exists self,
    Settings_new (with_numeric numeric_MAX_IMAGE_SIZE_MB 10) = inr self
    /\ max_image_size_bytes self = 10 * 1048576
    /\ max_image_size_bytes self = 10485760.
Proof.
  eexists. split; [vm_compute; reflexivity |].
  split.
  - apply (proj1 (proj2 (proj2 (max_image_size_bytes_of_MB
                                  (with_numeric numeric_MAX_IMAGE_SIZE_MB 10) _ eq_refl)))
             10 eq_refl).
  - reflexivity.
Defined.

(** ** Webhooks and production mode *)

(** C10. [webhook_enabled] and [is_production] agree on every instance:
    [is_production] already requires a webhook URL. *)
Theorem webhook_enabled_is_production (self : Settings) :
  webhook_enabled self = is_production self.
Proof.
  unfold webhook_enabled, is_production.
  destruct (is_not_None (WEBHOOK_URL self)); reflexivity.
Qed.

(** ** The cached instance *)

Lemma get_settings_cached (w : World) (p : Process) (r : Ref) :
  _settings_instance p = Some r -> get_settings w p = (p, inr r).
Proof. intros Hc. unfold get_settings. rewrite Hc. reflexivity. Qed.

Lemma get_settings_loads (w : World) (p : Process) (self : Settings) :
  _settings_instance p = None ->
  Settings_new (w Settings_env_file) = inr self ->
  get_settings w p =
  ({| _settings_instance := Some (List.length (objects p));
      objects := objects p ++ [self];
      stdout := stdout p ++ summary self |},
   inr (List.length (objects p))).
Proof.
  intros Hc Hs. unfold get_settings. rewrite Hc, Hs.
  unfold allocate, assign_settings_instance, print, summary. cbn.
  rewrite <- !app_assoc. reflexivity.
Qed.

Lemma get_settings_raises (w : World) (p : Process) (e : ValidationError) :
  _settings_instance p = None ->
  Settings_new (w Settings_env_file) = inl e ->
  get_settings w p =
  ({| _settings_instance := None;
      objects := objects p;
      stdout := stdout p ++ failure_report e |},
   inl e).
Proof.
  intros Hc Hs. unfold get_settings. rewrite Hc, Hs.
  unfold print, failure_report. cbn. rewrite Hc.
  rewrite <- !app_assoc. reflexivity.
Qed.


(** The module global always refers to an allocated object. *)
Lemma well_formed_unloaded : well_formed unloaded.
Proof. exact I. Qed.

Lemma well_formed_get_settings (w : World) (p : Process) :
  well_formed p -> well_formed (fst (get_settings w p)).
Proof.
  intros Hwf. destruct (_settings_instance p) as [r|] eqn:Hc.
  - rewrite (get_settings_cached w p r Hc). exact Hwf.
  - destruct (Settings_new (w Settings_env_file)) as [e|self] eqn:Hs.
    + rewrite (get_settings_raises w p e Hc Hs). exact I.
    + rewrite (get_settings_loads w p self Hc Hs). unfold well_formed. cbn.
      rewrite length_app. cbn. lia.
Qed.

Lemma well_formed_reload_settings (w : World) (p : Process) :
  well_formed (fst (reload_settings w p)).
Proof.
  unfold reload_settings. apply well_formed_get_settings. exact I.
Qed.

Lemma well_formed_get_test_settings (w : World) (p : Process) :
  well_formed p -> well_formed (fst (get_test_settings w p)).
Proof.
  unfold get_test_settings, well_formed.
  destruct (Settings_new (w TestSettings_env_file)); cbn; [auto |].
  destruct (_settings_instance p); [| auto].
  rewrite length_app. cbn. lia.
Qed.



(** ** A failed load *)

(** C7. When nothing is cached and construction fails, [get_settings]
    raises that very error, which is not empty; the module global stays
    unset and no object is allocated, only the two lines of the failure
    report are printed. The next call constructs again from the
    environment of its own moment: it returns a newly allocated instance
    when that succeeds and raises again when it does not. *)
Theorem get_settings_failure_propagates (w : World) (p : Process) (e : ValidationError) :
  _settings_instance p = None ->
  Settings_new (w Settings_env_file) = inl e ->
  exists p1,
    get_settings w p = (p1, inl e)
    /\ e <> []
    /\ _settings_instance p1 = None
    /\ objects p1 = objects p
    /\ stdout p1 = (stdout p ++ failure_report e)%list
    /\ forall w',
         match Settings_new (w' Settings_env_file) with
         | inr self =>
             exists p2,
               get_settings w' p1 = (p2, inr (List.length (objects p)))
               /\ _settings_instance p2 = Some (List.length (objects p))
               /\ deref p2 (List.length (objects p)) = Some self
         | inl e' =>
             exists p2,
               get_settings w' p1 = (p2, inl e')
               /\ _settings_instance p2 = None
         end.
Proof.
  intros Hc Hs. eexists.
  split; [exact (get_settings_raises w p e Hc Hs) |].
  split.
  { pose proof (Settings_new_nonempty (w Settings_env_file)) as Hne.
    rewrite Hs in Hne. exact Hne. }
  cbn [_settings_instance objects stdout].
  split; [reflexivity |]. split; [reflexivity |]. split; [reflexivity |].
  intros w'. destruct (Settings_new (w' Settings_env_file)) as [e'|self] eqn:Hs'.
  - eexists. split; [apply get_settings_raises; [reflexivity | exact Hs'] |].
    reflexivity.
  - pose proof (get_settings_loads w'
                  {| _settings_instance := None;
                     objects := objects p;
                     stdout := stdout p ++ failure_report e |}
                  self eq_refl Hs') as Hl.
    cbn [objects stdout] in Hl. eexists. split; [exact Hl |].
    cbn [_settings_instance objects]. split; [reflexivity |].
    unfold deref. cbn [objects]. rewrite lookup_app_r by lia.
    rewrite Nat.sub_diag. reflexivity.
Qed.

Lemma get_settings_failure_propagates_witness :
  exists p1,
    get_settings (everywhere Source.empty) unloaded =
      (p1, inl [("TELEGRAM_BOT_TOKEN", missing); ("PHOTOROOM_API_KEY", missing)])
    /\ _settings_instance p1 = None
    /\ objects p1 = []
    /\ exists p2, get_settings (everywhere secrets_only) p1 = (p2, inr 0%nat).
Proof.
  destruct (get_settings_failure_propagates (everywhere Source.empty) unloaded
              [("TELEGRAM_BOT_TOKEN", missing); ("PHOTOROOM_API_KEY", missing)]
              eq_refl eq_refl)
    as (p1 & Hraise & _ & Hunset & Hobjects & _ & Hnext).
  exists p1. split; [exact Hraise |]. split; [exact Hunset |]. split; [exact Hobjects |].
  destruct (Hnext (everywhere secrets_only)) as (p2 & Hget & _).
  exists p2. exact Hget.
Defined.

(** ** The test variant *)

(** C9. [get_test_settings] runs a construction on every call, from what
    the environment file ['.env.test'] resolves to and from nothing else
    of the world: not from what ['.env'] resolves to. It never looks at
    the module global: the outcome is the same whatever the global holds,
    and the global and the output are left as they were. When the
    construction succeeds the result is a newly allocated object, not the
    cached one, and the next call allocates yet another; when it fails the
    error is raised and the state is unchanged. *)
Theorem get_test_settings_bypasses_cache (w : World) (p : Process) :
  _settings_instance (fst (get_test_settings w p)) = _settings_instance p
  /\ stdout (fst (get_test_settings w p)) = stdout p
  /\ (forall o,
        get_test_settings w (assign_settings_instance o p) =
        (assign_settings_instance o (fst (get_test_settings w p)),
         snd (get_test_settings w p)))
  /\ (forall w',
        w' ".env.test" = w ".env.test" ->
        get_test_settings w' p = get_test_settings w p)
  /\ (forall self,
        Settings_new (w ".env.test") = inr self ->
        snd (get_test_settings w p) = inr (List.length (objects p))
        /\ deref p (List.length (objects p)) = None
        /\ deref (fst (get_test_settings w p)) (List.length (objects p)) = Some self
        /\ objects (fst (get_test_settings w p)) = (objects p ++ [self])%list
        /\ (well_formed p -> _settings_instance p <> Some (List.length (objects p)))
        /\ snd (get_test_settings w (fst (get_test_settings w p))) =
           inr (S (List.length (objects p))))
  /\ (forall e,
        Settings_new (w ".env.test") = inl e ->
        get_test_settings w p = (p, inl e)).
Proof.
  unfold get_test_settings.
  change TestSettings_env_file with ".env.test".
  split; [destruct (Settings_new (w ".env.test")); reflexivity |].
  split; [destruct (Settings_new (w ".env.test")); reflexivity |].
  split; [intros o; destruct (Settings_new (w ".env.test")); reflexivity |].
  split; [intros w' ->; reflexivity |].
  split.
  - intros self ->. cbn.
    split; [reflexivity |].
    split; [apply lookup_ge_None_2; lia |].
    split; [unfold deref; cbn; rewrite lookup_app_r by lia;
            rewrite Nat.sub_diag; reflexivity |].
    split; [reflexivity |].
    split.
    + unfold well_formed. intros Hwf Hc. rewrite Hc in Hwf. lia.
    + rewrite length_app. cbn. f_equal. lia.
  - intros e ->. reflexivity.
Qed.

Lemma get_test_settings_bypasses_cache_witness :
  snd (get_test_settings (two_files Source.empty secrets_only)
         (fst (get_settings (everywhere secrets_only) unloaded))) = inr 1%nat
  /\ snd (get_settings (two_files Source.empty secrets_only) unloaded)
     = inl [("TELEGRAM_BOT_TOKEN", missing); ("PHOTOROOM_API_KEY", missing)]
  /\ _settings_instance (fst (get_test_settings (two_files Source.empty secrets_only)
         (fst (get_settings (everywhere secrets_only) unloaded)))) = Some 0%nat
  /\ get_test_settings (two_files secrets_only Source.empty) unloaded =
     (unloaded, inl [("TELEGRAM_BOT_TOKEN", missing); ("PHOTOROOM_API_KEY", missing)]).
Proof.
  split; [| split; [| split]].
  - apply (proj2 (proj2 (proj2 (proj2 (get_test_settings_bypasses_cache
             (two_files Source.empty secrets_only)
             (fst (get_settings (everywhere secrets_only) unloaded)))))))
      with (self := Build_Settings example_token example_key "my_secret_token_123"
                      "127.0.0.1" 8000 None 10 85 ["JPEG"; "PNG"; "WEBP"] 30 3600 20
                      true true "photoroom" "INFO" true).
    reflexivity.
  - reflexivity.
  - apply (proj1 (get_test_settings_bypasses_cache (two_files Source.empty secrets_only)
                    (fst (get_settings (everywhere secrets_only) unloaded)))).
  - apply (proj2 (proj2 (proj2 (proj2 (proj2 (get_test_settings_bypasses_cache
             (two_files secrets_only Source.empty) unloaded)))))).
    reflexivity.
Defined.

(** * Further properties of the configuration model *)

(** ** What a passing field tells *)

Lemma pattern_inr (alternatives : list string) (v v' : string) :
  pattern alternatives v = inr v' <-> v' = v /\ v ∈ alternatives.
Proof.
  unfold pattern. case_bool_decide as Hin.
  - split; [intros [= <-]; auto | intros [-> _]; reflexivity].
  - split; [discriminate | intros [_ ?]; contradiction].
Qed.

Lemma pattern_inl (alternatives : list string) (v : string) (ty : ErrorType) :
  pattern alternatives v = inl ty <-> ty = string_pattern_mismatch /\ v ∉ alternatives.
Proof.
  unfold pattern. case_bool_decide as Hin.
  - split; [discriminate | intros [_ ?]; contradiction].
  - split; [intros [= <-]; auto | intros [-> _]; reflexivity].
Qed.

Lemma field_WEBHOOK_URL_inr (src : Source.t) (o : option string) :
  field_WEBHOOK_URL src = inr o ->
  (Source.WEBHOOK_URL src = Unset /\ o = None)
  \/ (exists u, Source.WEBHOOK_URL src = Given u
                /\ o = if String.prefix placeholder_prefix u then None else Some u).
Proof.
  unfold field_WEBHOOK_URL.
  destruct (Source.WEBHOOK_URL src) as [|u|]; [| | discriminate].
  - cbn. intros [= <-]. left. auto.
  - rewrite validate_webhook_url_Some. intros [= <-]. right. eauto.
Qed.

(** A default processor that passed is one of the two names, and its
    toggle did not resolve to false. *)
Lemma field_DEFAULT_PROCESSOR_inr (src : Source.t) (v : string) :
  field_DEFAULT_PROCESSOR src = inr v ->
  with_default "photoroom" (Source.DEFAULT_PROCESSOR src) = inr v
  /\ ((v = "photoroom" /\ field_ENABLE_PHOTOROOM src <> inr false)
      \/ (v = "pillow" /\ field_ENABLE_PILLOW src <> inr false)).
Proof.
  intros H.
  destruct (with_default "photoroom" (Source.DEFAULT_PROCESSOR src)) as [ty|x] eqn:Hx;
    [unfold field_DEFAULT_PROCESSOR in H; rewrite Hx in H; discriminate H |].
  destruct (pattern ["photoroom"; "pillow"] x) as [ty|x'] eqn:Hp;
    [unfold field_DEFAULT_PROCESSOR in H; rewrite Hx in H; cbn [and_then] in H;
     rewrite Hp in H; discriminate H |].
  apply pattern_inr in Hp as [-> Hin].
  rewrite !elem_of_cons, elem_of_nil in Hin.
  destruct Hin as [->|[->|[]]].
  - rewrite (field_DEFAULT_PROCESSOR_photoroom src Hx) in H.
    destruct (field_ENABLE_PHOTOROOM src) as [e|[|]] eqn:Ht;
      try discriminate H; injection H as <-; split; auto; left; split; congruence.
  - rewrite (field_DEFAULT_PROCESSOR_pillow src Hx) in H.
    destruct (field_ENABLE_PILLOW src) as [e|[|]] eqn:Ht;
      try discriminate H; injection H as <-; split; auto; right; split; congruence.
Qed.

(** ** The constraints hold of every instance *)

(** X1. Every instance that construction returns satisfies all the
    constraints of the class at once: both secrets are well formed, every
    numeric field is inside its range, a webhook URL, if present, does not
    start with the placeholder prefix, the log level is one of the five
    names, and the default processor is one of the two names with its own
    toggle on. *)
Theorem constructed_instance_satisfies_constraints (src : Source.t) (self : Settings) :
  Settings_new src = inr self -> Settings_invariant self.
Proof.
  intros Hs. apply Settings_new_inr in Hs
    as (H1 & H2 & _ & _ & H5 & H6 & H7 & H8 & _ & H10 & H11 & H12
        & H13 & H14 & H15 & H16 & _).
  apply field_TELEGRAM_BOT_TOKEN_inr in H1 as (_ & H1).
  apply field_PHOTOROOM_API_KEY_inr in H2 as (_ & H2).
  apply range_check_inr in H5 as [H5 _]. apply range_check_inr in H7 as [H7 _].
  apply range_check_inr in H8 as [H8 _]. apply range_check_inr in H10 as [H10 _].
  apply range_check_inr in H11 as [H11 _]. apply range_check_inr in H12 as [H12 _].
  apply field_DEFAULT_PROCESSOR_inr in H15 as [_ H15].
  unfold Settings_invariant.
  repeat (split; [first [exact H1 | exact H2 | assumption] |]).
  split.
  { intros u Hu. apply field_WEBHOOK_URL_inr in H6 as [[_ H6]|(u' & _ & H6)];
      rewrite Hu in H6; [discriminate H6 |].
    destruct (String.prefix placeholder_prefix u') eqn:Hp; [discriminate H6 |].
    injection H6 as ->. exact Hp. }
  repeat (split; [assumption |]).
  split.
  - destruct H15 as [[Hv Ht]|[Hv Ht]]; [left | right]; (split; [exact Hv |]).
    + rewrite H13 in Ht. destruct (ENABLE_PHOTOROOM self); congruence.
    + rewrite H14 in Ht. destruct (ENABLE_PILLOW self); congruence.
  - unfold field_LOG_LEVEL in H16.
    destruct (with_default "INFO" (Source.LOG_LEVEL src)) as [ty|x]; [discriminate H16 |].
    cbn [and_then] in H16. apply pattern_inr in H16 as [-> Hin]. exact Hin.
Qed.

Lemma constructed_instance_satisfies_constraints_witness :
  Settings_invariant
    (Build_Settings example_token example_key "my_secret_token_123" "127.0.0.1" 8000
       None 10 85 ["JPEG"; "PNG"; "WEBP"] 30 3600 20 true true "photoroom" "INFO" true).
Proof.
  exact (constructed_instance_satisfies_constraints secrets_only _ secrets_only_loads).
Defined.

(** X2. With both toggles resolved to false no default processor is
    acceptable: construction fails whatever is supplied for it, and what
    is raised names [DEFAULT_PROCESSOR] whenever the source decodes. *)
Theorem both_processors_disabled_fails (src : Source.t) :
  field_ENABLE_PHOTOROOM src = inr false ->
  field_ENABLE_PILLOW src = inr false ->
  fails (Settings_new src)
  /\ (decodes src -> blames (Settings_new src) "DEFAULT_PROCESSOR").
Proof.
  intros Hp Hl.
  destruct (field_DEFAULT_PROCESSOR src) as [ty|v] eqn:Hf.
  - destruct (Settings_new_field_error src "DEFAULT_PROCESSOR" ty) as [Hfails Hat];
      [do 14 right; left; auto |].
    split; [exact Hfails | intros Hd; exists ty; auto].
  - apply field_DEFAULT_PROCESSOR_inr in Hf as [_ [[_ H]|[_ H]]]; contradiction.
Qed.

Lemma both_processors_disabled_fails_witness :
  blames (Settings_new (processors false false (Given "pillow"))) "DEFAULT_PROCESSOR"
  /\ blames (Settings_new (processors false false Unset)) "DEFAULT_PROCESSOR".
Proof.
  split.
  - apply (both_processors_disabled_fails (processors false false (Given "pillow")));
      first [reflexivity | discriminate].
  - apply (both_processors_disabled_fails (processors false false Unset));
      first [reflexivity | discriminate].
Defined.

(** ** Defaults *)

Lemma with_default_inr {D A : Type} (d a : A) (r : raw D A) :
  with_default d r = inr a <-> r = Given a \/ (r = Unset /\ a = d).
Proof.
  destruct r as [|x|]; cbn.
  - split; [intros [= <-]; auto | intros [[=]|[_ ->]]; reflexivity].
  - split; [intros [= <-]; auto | intros [[= ->]|[[=] _]]; reflexivity].
  - split; [discriminate | intros [[=]|[[=] _]]].
Qed.

Lemma field_SUPPORTED_FORMATS_inr (src : Source.t) (l : list string) :
  field_SUPPORTED_FORMATS src = inr l <->
  Source.SUPPORTED_FORMATS src = Given l
  \/ (Source.SUPPORTED_FORMATS src = Unset /\ l = ["JPEG"; "PNG"; "WEBP"]).
Proof.
  unfold field_SUPPORTED_FORMATS.
  destruct (Source.SUPPORTED_FORMATS src) as [|x|[| |i others]].
  - split; [intros [= <-]; auto | intros [[=]|[_ ->]]; reflexivity].
  - split; [intros [= <-]; auto | intros [[= ->]|[[=] _]]; reflexivity].
  - split; [discriminate | intros [[=]|[[=] _]]].
  - split; [discriminate | intros [[=]|[[=] _]]].
  - split; [discriminate | intros [[=]|[[=] _]]].
Qed.

(** X3. The declared defaults are consistent with the constraints: a
    source that supplies a well-formed token and key and nothing else is
    always accepted, and the instance holds the two secrets and, in every
    other field, the declared default. *)
Theorem secrets_alone_suffice (token key : string) :
  token <> "" -> token <> "your_telegram_bot_token_here" ->
  str_in ":" token = true -> 30 <= len token ->
  key <> "" -> key <> "your_photoroom_api_key_here" ->
  Settings_new (only_secrets token key) =
  inr (Build_Settings token key "my_secret_token_123" "127.0.0.1" 8000 None 10 85
         ["JPEG"; "PNG"; "WEBP"] 30 3600 20 true true "photoroom" "INFO" true).
Proof.
  intros Ht1 Ht2 Ht3 Ht4 Hk1 Hk2.
  apply Settings_new_inr. cbn [TELEGRAM_BOT_TOKEN PHOTOROOM_API_KEY SECRET_TOKEN HOST PORT
    WEBHOOK_URL MAX_IMAGE_SIZE_MB DEFAULT_IMAGE_QUALITY SUPPORTED_FORMATS REQUEST_TIMEOUT
    SESSION_TTL RATE_LIMIT_PER_MINUTE ENABLE_PHOTOROOM ENABLE_PILLOW DEFAULT_PROCESSOR
    LOG_LEVEL ENABLE_FILE_LOGGING].
  split; [apply field_TELEGRAM_BOT_TOKEN_inr; cbn; auto |].
  split; [apply field_PHOTOROOM_API_KEY_inr; cbn; auto |].
  do 12 (split; [reflexivity |]).
  split; [| repeat split; reflexivity].
  rewrite field_DEFAULT_PROCESSOR_photoroom by reflexivity. reflexivity.
Qed.

Lemma secrets_alone_suffice_witness :
  Settings_new (only_secrets example_token example_key) =
  inr (Build_Settings example_token example_key "my_secret_token_123" "127.0.0.1" 8000
         None 10 85 ["JPEG"; "PNG"; "WEBP"] 30 3600 20 true true "photoroom" "INFO" true).
Proof.
  apply secrets_alone_suffice; try discriminate; reflexivity.
Defined.

(** X4. In a constructed instance every field the source leaves unset
    holds its declared default. *)
Theorem unset_fields_hold_defaults (src : Source.t) (self : Settings) :
  Settings_new src = inr self ->
  (Source.SECRET_TOKEN src = Unset -> SECRET_TOKEN self = "my_secret_token_123")
  /\ (Source.HOST src = Unset -> HOST self = "127.0.0.1")
  /\ (Source.PORT src = Unset -> PORT self = 8000)
  /\ (Source.WEBHOOK_URL src = Unset -> WEBHOOK_URL self = None)
  /\ (Source.MAX_IMAGE_SIZE_MB src = Unset -> MAX_IMAGE_SIZE_MB self = 10)
  /\ (Source.DEFAULT_IMAGE_QUALITY src = Unset -> DEFAULT_IMAGE_QUALITY self = 85)
  /\ (Source.SUPPORTED_FORMATS src = Unset ->
      SUPPORTED_FORMATS self = ["JPEG"; "PNG"; "WEBP"])
  /\ (Source.REQUEST_TIMEOUT src = Unset -> REQUEST_TIMEOUT self = 30)
  /\ (Source.SESSION_TTL src = Unset -> SESSION_TTL self = 3600)
  /\ (Source.RATE_LIMIT_PER_MINUTE src = Unset -> RATE_LIMIT_PER_MINUTE self = 20)
  /\ (Source.ENABLE_PHOTOROOM src = Unset -> ENABLE_PHOTOROOM self = true)
  /\ (Source.ENABLE_PILLOW src = Unset -> ENABLE_PILLOW self = true)
  /\ (Source.DEFAULT_PROCESSOR src = Unset -> DEFAULT_PROCESSOR self = "photoroom")
  /\ (Source.LOG_LEVEL src = Unset -> LOG_LEVEL self = "INFO")
  /\ (Source.ENABLE_FILE_LOGGING src = Unset -> ENABLE_FILE_LOGGING self = true).
Proof.
  intros Hs. apply Settings_new_inr in Hs
    as (_ & _ & H3 & H4 & H5 & H6 & H7 & H8 & H9 & H10 & H11 & H12
        & H13 & H14 & H15 & H16 & H17 & _).
  apply range_check_inr in H5 as [_ H5]. apply range_check_inr in H7 as [_ H7].
  apply range_check_inr in H8 as [_ H8]. apply range_check_inr in H10 as [_ H10].
  apply range_check_inr in H11 as [_ H11]. apply range_check_inr in H12 as [_ H12].
  apply with_default_inr in H3, H4, H13, H14, H17.
  apply field_SUPPORTED_FORMATS_inr in H9.
  apply field_WEBHOOK_URL_inr in H6.
  apply field_DEFAULT_PROCESSOR_inr in H15 as [H15 _]. apply with_default_inr in H15.
  unfold field_LOG_LEVEL in H16.
  destruct (with_default "INFO" (Source.LOG_LEVEL src)) as [ty|x] eqn:Hx;
    [discriminate H16 |].
  cbn [and_then] in H16. apply pattern_inr in H16 as [H16 _]. subst x.
  apply with_default_inr in Hx.
  repeat split; intros Hu;
    match goal with
    | H : _ \/ _ |- _ =>
        rewrite Hu in H; destruct H as [H|H];
        solve [ discriminate H
              | destruct H as [_ H]; exact H
              | destruct H as (? & H & _); discriminate H ]
    end.
Qed.

Lemma unset_fields_hold_defaults_witness :
  exists self, Settings_new (with_webhook "https://bot.example.org/hook") = inr self
               /\ PORT self = 8000 /\ LOG_LEVEL self = "INFO".
Proof.
  eexists. split; [vm_compute; reflexivity |].
  split.
  - refine (proj1 (proj2 (proj2 (unset_fields_hold_defaults
              (with_webhook "https://bot.example.org/hook") _ eq_refl))) eq_refl).
  - apply (unset_fields_hold_defaults
             (with_webhook "https://bot.example.org/hook") _ eq_refl).
    reflexivity.
Defined.

(** ** The two fields with a pattern *)

(** X5. A supplied log level is accepted exactly when it is one of
    [DEBUG], [INFO], [WARNING], [ERROR], [CRITICAL], spelled so: one of
    them is never blamed and is kept as it is; with anything else, a
    lower-case spelling included, construction fails, and what is raised
    has a pattern mismatch on [LOG_LEVEL] whenever the source decodes. *)
Theorem log_level_is_one_of_five (src : Source.t) (v : string) :
  Source.LOG_LEVEL src = Given v ->
  (v ∈ ["DEBUG"; "INFO"; "WARNING"; "ERROR"; "CRITICAL"] ->
   ~ blames (Settings_new src) "LOG_LEVEL"
   /\ forall self, Settings_new src = inr self -> LOG_LEVEL self = v)
  /\ (v ∉ ["DEBUG"; "INFO"; "WARNING"; "ERROR"; "CRITICAL"] ->
      fails (Settings_new src)
      /\ (decodes src ->
          fails_at (Settings_new src) "LOG_LEVEL" string_pattern_mismatch)).
Proof.
  intros Hv.
  assert (Hf : field_LOG_LEVEL src =
               pattern ["DEBUG"; "INFO"; "WARNING"; "ERROR"; "CRITICAL"] v).
  { unfold field_LOG_LEVEL. rewrite Hv. reflexivity. }
  split.
  - intros Hin. assert (Hok : field_LOG_LEVEL src = inr v).
    { rewrite Hf. apply pattern_inr. auto. }
    split.
    + intros [ty H]. other_field Settings_new_fails_at H. congruence.
    + intros self Hs. apply Settings_new_inr in Hs.
      destruct Hs as (_ & _ & _ & _ & _ & _ & _ & _ & _ & _ & _ & _ & _ & _ & _ & H16 & _).
      congruence.
  - intros Hout. apply Settings_new_field_error. do 15 right. left.
    split; [reflexivity |]. rewrite Hf. apply pattern_inl. auto.
Qed.

Lemma log_level_is_one_of_five_witness :
  fails_at (Settings_new (with_log_level "info")) "LOG_LEVEL" string_pattern_mismatch
  /\ ~ blames (Settings_new (with_log_level "DEBUG")) "LOG_LEVEL".
Proof.
  split.
  - apply (proj2 (log_level_is_one_of_five (with_log_level "info") "info" eq_refl)).
    + rewrite !elem_of_cons, elem_of_nil.
      intros [H|[H|[H|[H|[H|[]]]]]]; discriminate H.
    + discriminate.
  - apply (proj1 (log_level_is_one_of_five (with_log_level "DEBUG") "DEBUG" eq_refl)).
    rewrite elem_of_cons. left. reflexivity.
Defined.

(** X6. With a supplied default processor other than ['photoroom'] and
    ['pillow'] construction fails whatever the toggles are; what is
    raised has a pattern mismatch on [DEFAULT_PROCESSOR] whenever the
    source decodes, and never an error of the validator, which is not
    reached. *)
Theorem unknown_default_processor_is_rejected (src : Source.t) (v : string) :
  Source.DEFAULT_PROCESSOR src = Given v ->
  v <> "photoroom" -> v <> "pillow" ->
  fails (Settings_new src)
  /\ (decodes src ->
      fails_at (Settings_new src) "DEFAULT_PROCESSOR" string_pattern_mismatch)
  /\ forall m, ~ fails_at (Settings_new src) "DEFAULT_PROCESSOR" (value_error m).
Proof.
  intros Hv Hn1 Hn2.
  assert (Hf : field_DEFAULT_PROCESSOR src = inl string_pattern_mismatch).
  { unfold field_DEFAULT_PROCESSOR. rewrite Hv. cbn [with_default and_then].
    assert (Hp : pattern ["photoroom"; "pillow"] v = inl string_pattern_mismatch).
    { apply pattern_inl. split; [reflexivity |].
      rewrite !elem_of_cons, elem_of_nil. tauto. }
    rewrite Hp. reflexivity. }
  destruct (Settings_new_field_error src "DEFAULT_PROCESSOR" string_pattern_mismatch)
    as [Hfails Hat]; [do 14 right; left; auto |].
  split; [exact Hfails | split; [exact Hat |]].
  intros m H. other_field Settings_new_fails_at H. congruence.
Qed.

Lemma unknown_default_processor_is_rejected_witness :
  fails_at (Settings_new (processors true true (Given "Photoroom")))
           "DEFAULT_PROCESSOR" string_pattern_mismatch.
Proof.
  apply (unknown_default_processor_is_rejected
           (processors true true (Given "Photoroom")) "Photoroom" eq_refl);
    discriminate.
Defined.

(** ** The fields without a constraint *)

(** X7. [SECRET_TOKEN], [HOST], [SUPPORTED_FORMATS] and the three boolean
    fields carry no constraint: whatever value the source supplies, the
    empty string and the empty list included, the field is never blamed
    and a constructed instance holds that very value. *)
Theorem unconstrained_fields_accept_anything (src : Source.t) :
  (forall v, Source.SECRET_TOKEN src = Given v ->
     ~ blames (Settings_new src) "SECRET_TOKEN"
     /\ forall self, Settings_new src = inr self -> SECRET_TOKEN self = v)
  /\ (forall v, Source.HOST src = Given v ->
        ~ blames (Settings_new src) "HOST"
        /\ forall self, Settings_new src = inr self -> HOST self = v)
  /\ (forall v, Source.SUPPORTED_FORMATS src = Given v ->
        ~ blames (Settings_new src) "SUPPORTED_FORMATS"
        /\ forall self, Settings_new src = inr self -> SUPPORTED_FORMATS self = v)
  /\ (forall v, Source.ENABLE_PHOTOROOM src = Given v ->
        ~ blames (Settings_new src) "ENABLE_PHOTOROOM"
        /\ forall self, Settings_new src = inr self -> ENABLE_PHOTOROOM self = v)
  /\ (forall v, Source.ENABLE_PILLOW src = Given v ->
        ~ blames (Settings_new src) "ENABLE_PILLOW"
        /\ forall self, Settings_new src = inr self -> ENABLE_PILLOW self = v)
  /\ (forall v, Source.ENABLE_FILE_LOGGING src = Given v ->
        ~ blames (Settings_new src) "ENABLE_FILE_LOGGING"
        /\ forall self, Settings_new src = inr self -> ENABLE_FILE_LOGGING self = v).
Proof.
  repeat match goal with |- _ /\ _ => split end; intros v Hv; split.
  all: try (intros [ty H]; other_field Settings_new_fails_at H;
            try destruct H as (es & H & _);
            unfold field_SECRET_TOKEN, field_HOST, field_SUPPORTED_FORMATS,
              field_ENABLE_PHOTOROOM, field_ENABLE_PILLOW,
              field_ENABLE_FILE_LOGGING in H;
            rewrite Hv in H; discriminate H).
  all: intros self Hs; apply Settings_new_inr in Hs
         as (_ & _ & H3 & H4 & _ & _ & _ & _ & H9 & _ & _ & _ & H13 & H14 & _ & _
             & H17 & _);
       unfold field_SECRET_TOKEN, field_HOST, field_SUPPORTED_FORMATS,
         field_ENABLE_PHOTOROOM, field_ENABLE_PILLOW, field_ENABLE_FILE_LOGGING in *;
       match goal with
       | H : _ = inr ?x |- ?x = _ =>
           rewrite Hv in H; cbn in H; congruence
       end.
Qed.

Lemma unconstrained_fields_accept_anything_witness :
  exists self,
    Settings_new with_blanks = inr self
    /\ HOST self = "" /\ SUPPORTED_FORMATS self = [].
Proof.
  eexists. split; [vm_compute; reflexivity |].
  split.
  - apply (proj2 (proj1 (proj2 (unconstrained_fields_accept_anything with_blanks))
                    "" eq_refl) _ eq_refl).
  - apply (proj2 (proj1 (proj2 (proj2 (unconstrained_fields_accept_anything with_blanks)))
                    [] eq_refl) _ eq_refl).
Defined.

(** ** Which error the token gets *)

Lemma validate_telegram_token_inl (v : string) (ty : ErrorType) :
  validate_telegram_token v = inl ty <->
    ((v = "" \/ v = "your_telegram_bot_token_here")
     /\ ty = value_error telegram_token_not_configured)
    \/ (v <> "" /\ v <> "your_telegram_bot_token_here"
        /\ (str_in ":" v = false \/ len v < 30)
        /\ ty = value_error telegram_token_bad_format).
Proof.
  unfold validate_telegram_token.
  destruct (String.eqb_spec v "") as [->|Hne]; cbn [orb].
  { split; [intros [= <-]; left; auto | intros [[_ ->]|(H & _)]; congruence]. }
  destruct (String.eqb_spec v "your_telegram_bot_token_here") as [->|Hnp].
  { split; [intros [= <-]; left; auto | intros [[_ ->]|(_ & H & _)]; congruence]. }
  destruct (str_in ":" v) eqn:Hc; cbn [negb orb].
  - destruct (Z.ltb_spec (len v) 30).
    + split; [intros [= <-]; right; auto 6 | intros [[[?|?] _]|(_ & _ & _ & ->)]; congruence].
    + split; [discriminate | intros [[[?|?] _]|(_ & _ & [?|?] & _)]; try congruence; lia].
  - split; [intros [= <-]; right; auto 6 | intros [[[?|?] _]|(_ & _ & _ & ->)]; congruence].
Qed.

(** X8. A line on [TELEGRAM_BOT_TOKEN] in what is raised is determined
    by the token alone. An absent token is reported as missing. An empty
    token and the placeholder are reported as not configured, even though
    the placeholder also has no [':'] and fewer than 30 characters. Any
    other token without [':'] or shorter than 30 characters is reported as
    badly formatted. No other token is reported at all. Each of these
    lines is in what is raised whenever the source decodes. *)
Theorem telegram_token_error_kinds (src : Source.t) (ty : ErrorType) :
  (fails_at (Settings_new src) "TELEGRAM_BOT_TOKEN" ty ->
     (Source.TELEGRAM_BOT_TOKEN src = Unset /\ ty = missing)
     \/ (exists v, Source.TELEGRAM_BOT_TOKEN src = Given v
                   /\ (v = "" \/ v = "your_telegram_bot_token_here")
                   /\ ty = value_error telegram_token_not_configured)
     \/ (exists v, Source.TELEGRAM_BOT_TOKEN src = Given v
                   /\ v <> "" /\ v <> "your_telegram_bot_token_here"
                   /\ (str_in ":" v = false \/ len v < 30)
                   /\ ty = value_error telegram_token_bad_format))
  /\ (decodes src ->
      (Source.TELEGRAM_BOT_TOKEN src = Unset /\ ty = missing)
      \/ (exists v, Source.TELEGRAM_BOT_TOKEN src = Given v
                    /\ (v = "" \/ v = "your_telegram_bot_token_here")
                    /\ ty = value_error telegram_token_not_configured)
      \/ (exists v, Source.TELEGRAM_BOT_TOKEN src = Given v
                    /\ v <> "" /\ v <> "your_telegram_bot_token_here"
                    /\ (str_in ":" v = false \/ len v < 30)
                    /\ ty = value_error telegram_token_bad_format) ->
      fails_at (Settings_new src) "TELEGRAM_BOT_TOKEN" ty).
Proof.
  assert (Hfield : field_TELEGRAM_BOT_TOKEN src = inl ty <->
     (Source.TELEGRAM_BOT_TOKEN src = Unset /\ ty = missing)
     \/ (exists v, Source.TELEGRAM_BOT_TOKEN src = Given v
                   /\ (v = "" \/ v = "your_telegram_bot_token_here")
                   /\ ty = value_error telegram_token_not_configured)
     \/ (exists v, Source.TELEGRAM_BOT_TOKEN src = Given v
                   /\ v <> "" /\ v <> "your_telegram_bot_token_here"
                   /\ (str_in ":" v = false \/ len v < 30)
                   /\ ty = value_error telegram_token_bad_format)).
  { unfold field_TELEGRAM_BOT_TOKEN.
    destruct (Source.TELEGRAM_BOT_TOKEN src) as [|v|[]]; cbn [required and_then].
    - split; [intros [= <-]; auto |].
      intros [[_ ->]|[(v & [=] & _)|(v & [=] & _)]]. reflexivity.
    - rewrite validate_telegram_token_inl. split.
      + intros [[H ->]|(H1 & H2 & H3 & ->)].
        * right. left. exists v. auto.
        * right. right. exists v. auto 6.
      + intros [[[=] _]|[(v' & [= <-] & H & ->)|(v' & [= <-] & H1 & H2 & H3 & ->)]];
          [left | right]; auto. }
  split.
  - intros H. other_field Settings_new_fails_at H. apply Hfield. exact H.
  - intros Hd H. apply Settings_new_fails_at_field; [exact Hd |].
    left. split; [reflexivity |]. apply Hfield. exact H.
Qed.

Lemma telegram_token_error_kinds_witness :
  fails_at (Settings_new (with_token "your_telegram_bot_token_here"))
           "TELEGRAM_BOT_TOKEN" (value_error telegram_token_not_configured).
Proof.
  apply (proj2 (telegram_token_error_kinds
                  (with_token "your_telegram_bot_token_here")
                  (value_error telegram_token_not_configured))).
  - discriminate.
  - right. left. exists "your_telegram_bot_token_here". auto.
Defined.

(** ** A toggle that did not validate *)

(** X9. The validator of the default processor reads a toggle that is
    missing from [values] as true. So when a toggle is supplied but does
    not parse, construction fails, what is raised never names
    [DEFAULT_PROCESSOR] for the processor that depends on that toggle, and
    it names the toggle whenever the source decodes. *)
Theorem malformed_toggle_is_not_charged_to_default_processor (src : Source.t) :
  (Source.ENABLE_PHOTOROOM src = Malformed not_a_value ->
   with_default "photoroom" (Source.DEFAULT_PROCESSOR src) = inr "photoroom" ->
   fails (Settings_new src)
   /\ ~ blames (Settings_new src) "DEFAULT_PROCESSOR"
   /\ (decodes src -> fails_at (Settings_new src) "ENABLE_PHOTOROOM" parsing))
  /\ (Source.ENABLE_PILLOW src = Malformed not_a_value ->
      with_default "photoroom" (Source.DEFAULT_PROCESSOR src) = inr "pillow" ->
      fails (Settings_new src)
      /\ ~ blames (Settings_new src) "DEFAULT_PROCESSOR"
      /\ (decodes src -> fails_at (Settings_new src) "ENABLE_PILLOW" parsing)).
Proof.
  split; intros Hm Hv.
  - assert (Ht : field_ENABLE_PHOTOROOM src = inl parsing)
      by (unfold field_ENABLE_PHOTOROOM; rewrite Hm; reflexivity).
    destruct (Settings_new_field_error src "ENABLE_PHOTOROOM" parsing) as [Hfails Hat];
      [do 12 right; left; auto |].
    split; [exact Hfails | split; [| exact Hat]].
    intros [ty H]. other_field Settings_new_fails_at H.
    rewrite (field_DEFAULT_PROCESSOR_photoroom src Hv), Ht in H. discriminate H.
  - assert (Ht : field_ENABLE_PILLOW src = inl parsing)
      by (unfold field_ENABLE_PILLOW; rewrite Hm; reflexivity).
    destruct (Settings_new_field_error src "ENABLE_PILLOW" parsing) as [Hfails Hat];
      [do 13 right; left; auto |].
    split; [exact Hfails | split; [| exact Hat]].
    intros [ty H]. other_field Settings_new_fails_at H.
    rewrite (field_DEFAULT_PROCESSOR_pillow src Hv), Ht in H. discriminate H.
Qed.

Lemma malformed_toggle_is_not_charged_to_default_processor_witness :
  Settings_new with_unparsable_photoroom = inl [("ENABLE_PHOTOROOM", parsing)]
  /\ ~ blames (Settings_new with_unparsable_photoroom) "DEFAULT_PROCESSOR".
Proof.
  split; [vm_compute; reflexivity |].
  apply (proj1 (malformed_toggle_is_not_charged_to_default_processor
                  with_unparsable_photoroom) eq_refl eq_refl).
Defined.

(** ** When webhooks are enabled *)

Lemma is_development_false (self : Settings) :
  is_development self = false <->
    HOST self <> "127.0.0.1" /\ HOST self <> "localhost"
    /\ PORT self <> 8000 /\ PORT self <> 8080.
Proof.
  unfold is_development. rewrite orb_false_iff, !bool_decide_eq_false.
  rewrite !elem_of_cons, !elem_of_nil. tauto.
Qed.

(** X10. In a constructed instance [webhook_enabled] is true exactly when
    the source itself supplies all three of: a host other than
    ['127.0.0.1'] and ['localhost'], a port other than 8000 and 8080, and
    a webhook URL that does not start with the placeholder prefix. With
    the default host or the default port webhooks stay off. *)
Theorem webhook_enabled_needs_host_port_and_url (src : Source.t) (self : Settings) :
  Settings_new src = inr self ->
  (webhook_enabled self = true <->
   exists h p u,
     Source.HOST src = Given h /\ h <> "127.0.0.1" /\ h <> "localhost"
     /\ Source.PORT src = Given p /\ p <> 8000 /\ p <> 8080
     /\ Source.WEBHOOK_URL src = Given u
     /\ String.prefix placeholder_prefix u = false).
Proof.
  intros Hs. apply Settings_new_inr in Hs as (_ & _ & _ & H4 & H5 & H6 & _).
  apply with_default_inr in H4. apply range_check_inr in H5 as [_ H5].
  apply field_WEBHOOK_URL_inr in H6.
  unfold webhook_enabled, is_production.
  rewrite !andb_true_iff, negb_true_iff, is_development_false.
  split.
  - intros (Hw & _ & Hh1 & Hh2 & Hp1 & Hp2).
    destruct H4 as [H4|[_ H4]]; [| congruence].
    destruct H5 as [H5|[_ H5]]; [| congruence].
    destruct H6 as [[_ H6]|(u & Hu & H6)]; [rewrite H6 in Hw; discriminate Hw |].
    exists (HOST self), (PORT self), u.
    destruct (String.prefix placeholder_prefix u);
      [rewrite H6 in Hw; discriminate Hw | auto 10].
  - intros (h & p & u & Hh & Hh1 & Hh2 & Hp & Hp1 & Hp2 & Hu & Hpre).
    assert (HOST self = h) as -> by (destruct H4 as [H4|[H4 _]]; congruence).
    assert (PORT self = p) as -> by (destruct H5 as [H5|[H5 _]]; congruence).
    assert (WEBHOOK_URL self = Some u) as ->.
    { destruct H6 as [[H6 _]|(u' & Hu' & H6)]; [congruence |].
      rewrite Hu in Hu'. injection Hu' as <-. rewrite Hpre in H6. exact H6. }
    cbn. auto 10.
Qed.

Lemma webhook_enabled_needs_host_port_and_url_witness :
  (exists self,
     Settings_new (Source.make (Given example_token) (Given example_key) Unset
                     (Given "0.0.0.0") (Given 8443) (Given "https://bot.example.org/hook")
                     Unset Unset Unset Unset Unset Unset Unset Unset Unset Unset Unset [])
     = inr self /\ webhook_enabled self = true)
  /\ (exists self,
        Settings_new (with_webhook "https://bot.example.org/hook") = inr self
        /\ webhook_enabled self <> true).
Proof.
  split.
  - eexists. split; [vm_compute; reflexivity |].
    apply (proj2 (webhook_enabled_needs_host_port_and_url
                    (Source.make (Given example_token) (Given example_key) Unset
                       (Given "0.0.0.0") (Given 8443)
                       (Given "https://bot.example.org/hook")
                       Unset Unset Unset Unset Unset Unset Unset Unset Unset Unset Unset [])
                    _ eq_refl)).
    exists "0.0.0.0", 8443, "https://bot.example.org/hook".
    repeat split; discriminate.
  - eexists. split; [vm_compute; reflexivity |].
    intros Hon.
    apply (proj1 (webhook_enabled_needs_host_port_and_url
                    (with_webhook "https://bot.example.org/hook") _ eq_refl)) in Hon.
    destruct Hon as (h & _ & _ & Hh & _). discriminate Hh.
Defined.

(** ** The size limit in bytes *)

(** X11. In a constructed instance [max_image_size_bytes] is a whole
    number of mebibytes between 1,048,576 and 52,428,800. *)
Theorem max_image_size_bytes_bounds (src : Source.t) (self : Settings) :
  Settings_new src = inr self ->
  1048576 <= max_image_size_bytes self <= 52428800
  /\ max_image_size_bytes self mod 1048576 = 0.
Proof.
  intros Hs. apply Settings_new_inr in Hs as (_ & _ & _ & _ & _ & _ & H7 & _).
  apply range_check_inr in H7 as [H7 _].
  unfold max_image_size_bytes.
  split; [lia |].
  replace (MAX_IMAGE_SIZE_MB self * 1024 * 1024) with (MAX_IMAGE_SIZE_MB self * 1048576)
    by lia.
  apply Z.mod_mul. lia.
Qed.

Lemma max_image_size_bytes_bounds_witness :
  exists self,
    Settings_new (with_numeric numeric_MAX_IMAGE_SIZE_MB 50) = inr self
    /\ 1048576 <= max_image_size_bytes self <= 52428800.
Proof.
  eexists. split; [vm_compute; reflexivity |].
  apply (max_image_size_bytes_bounds (with_numeric numeric_MAX_IMAGE_SIZE_MB 50) _ eq_refl).
Defined.

(** ** What the first access prints *)

(** X12. A successful first access prints six lines: the heading, the
    host, the port, the two secrets both shown as configured (the other
    wording can never be printed, since an instance with an empty secret
    does not exist) and the webhook. The webhook line shows a URL only if
    the instance holds it, it is not empty and it does not start with the
    placeholder prefix. Later calls print nothing more. *)
Theorem summary_is_printed_once (w : World) (p : Process) (self : Settings) :
  _settings_instance p = None ->
  Settings_new (w Settings_env_file) = inr self ->
  exists shown,
    stdout (fst (get_settings w p)) =
      (stdout p ++ [loaded_line; host_line (HOST self); port_line (PORT self);
                    telegram_bot_line true; photoroom_api_line true;
                    webhook_line shown])%list
    /\ (shown = None <-> WEBHOOK_URL self = None \/ WEBHOOK_URL self = Some "")
    /\ (forall u, shown = Some u ->
          WEBHOOK_URL self = Some u /\ String.prefix placeholder_prefix u = false)
    /\ forall w', stdout (fst (get_settings w' (fst (get_settings w p)))) =
                  stdout (fst (get_settings w p)).
Proof.
  intros Hc Hs. rewrite (get_settings_loads w p self Hc Hs). cbn [fst stdout].
  pose proof Hs as Hf. apply Settings_new_inr in Hf as (H1 & H2 & _ & _ & _ & H6 & _).
  apply field_TELEGRAM_BOT_TOKEN_inr in H1 as (_ & H1 & _).
  apply field_PHOTOROOM_API_KEY_inr in H2 as (_ & H2 & _).
  apply String.eqb_neq in H1, H2.
  eexists. unfold summary, str_truthy. rewrite H1, H2. cbn [negb].
  split; [reflexivity |].
  split; [| split].
  - destruct (WEBHOOK_URL self) as [u|]; [| tauto].
    destruct (String.eqb_spec u "") as [->|Hne]; cbn [negb].
    + tauto.
    + split; [discriminate | intros [H|H]; congruence].
  - intros u Hshown. destruct (WEBHOOK_URL self) as [u'|] eqn:Hw; [| discriminate Hshown].
    destruct (negb (u' =? "")%string); [| discriminate Hshown].
    injection Hshown as ->. split; [reflexivity |].
    apply field_WEBHOOK_URL_inr in H6 as [[_ H6]|(u0 & _ & H6)]; [discriminate H6 |].
    destruct (String.prefix placeholder_prefix u0) eqn:Hp; [discriminate H6 |].
    injection H6 as ->. exact Hp.
  - intros w'. erewrite get_settings_cached by reflexivity. reflexivity.
Qed.

Lemma summary_is_printed_once_witness :
  exists shown,
    stdout (fst (get_settings (everywhere (with_webhook "https://yourdomain.example"))
                   unloaded)) =
      ([] ++ [loaded_line; host_line "127.0.0.1"; port_line 8000;
              telegram_bot_line true; photoroom_api_line true; webhook_line shown])%list
    /\ shown = None.
Proof.
  destruct (summary_is_printed_once
              (everywhere (with_webhook "https://yourdomain.example")) unloaded
              (Build_Settings example_token example_key "my_secret_token_123" "127.0.0.1"
                 8000 None 10 85 ["JPEG"; "PNG"; "WEBP"] 30 3600 20 true true
                 "photoroom" "INFO" true)
              eq_refl eq_refl) as (shown & Hout & Hnone & _).
  exists shown. split; [exact Hout |]. apply Hnone. left. reflexivity.
Defined.

(** ** A reload that fails *)

(** X13. When construction fails during [reload_settings], the error is
    raised and the instance that was cached is forgotten: nothing is
    cached afterwards, no object is allocated, the failure report is
    printed, and no later call of [get_settings] returns the instance that
    was cached before. *)
Theorem failed_reload_forgets_the_instance (w : World) (p : Process) (e : ValidationError) :
  Settings_new (w Settings_env_file) = inl e ->
  reload_settings w p =
    ({| _settings_instance := None;
        objects := objects p;
        stdout := stdout p ++ failure_report e |}, inl e)
  /\ forall r w',
       well_formed p -> _settings_instance p = Some r ->
       snd (get_settings w' (fst (reload_settings w p))) <> inr r.
Proof.
  intros Hs.
  assert (Hr : reload_settings w p =
               ({| _settings_instance := None;
                   objects := objects p;
                   stdout := stdout p ++ failure_report e |}, inl e)).
  { unfold reload_settings.
    rewrite (get_settings_raises w (assign_settings_instance None p) e eq_refl Hs).
    reflexivity. }
  split; [exact Hr |].
  intros r w' Hwf Hc. rewrite Hr. cbn [fst].
  unfold well_formed in Hwf. rewrite Hc in Hwf.
  destruct (Settings_new (w' Settings_env_file)) as [e'|self] eqn:Hs'.
  - erewrite get_settings_raises by (reflexivity || exact Hs'). discriminate.
  - erewrite get_settings_loads by (reflexivity || exact Hs').
    cbn [snd objects]. intros [= Heq]. lia.
Qed.

Lemma failed_reload_forgets_the_instance_witness :
  snd (get_settings (everywhere secrets_only) unloaded) = inr 0%nat
  /\ _settings_instance
       (fst (reload_settings (everywhere Source.empty)
               (fst (get_settings (everywhere secrets_only) unloaded)))) = None
  /\ snd (get_settings (everywhere secrets_only)
            (fst (reload_settings (everywhere Source.empty)
                    (fst (get_settings (everywhere secrets_only) unloaded)))))
     <> inr 0%nat.
Proof.
  split; [reflexivity |].
  destruct (failed_reload_forgets_the_instance (everywhere Source.empty)
              (fst (get_settings (everywhere secrets_only) unloaded))
              [("TELEGRAM_BOT_TOKEN", missing); ("PHOTOROOM_API_KEY", missing)]
              eq_refl) as [Hr Hnever].
  split.
  - rewrite Hr. reflexivity.
  - apply Hnever; [| reflexivity]. vm_compute. constructor.
Defined.

(** ** Any run of calls *)

Lemma perform_extends (c : Call) (w : World) (p : Process) :
  exists l, objects (fst (perform c w p)) = (objects p ++ l)%list
            /\ Forall constructed l.
Proof.
  assert (Hget : forall q, objects q = objects p ->
            exists l, objects (fst (get_settings w q)) = (objects p ++ l)%list
                      /\ Forall constructed l).
  { intros q Hq. destruct (_settings_instance q) as [r|] eqn:Hc.
    - rewrite (get_settings_cached w q r Hc). exists []. rewrite app_nil_r. auto.
    - destruct (Settings_new (w Settings_env_file)) as [e|self] eqn:Hs.
      + rewrite (get_settings_raises w q e Hc Hs). exists []. rewrite app_nil_r. auto.
      + rewrite (get_settings_loads w q self Hc Hs). exists [self]. cbn. rewrite Hq.
        split; [reflexivity |]. repeat constructor. exists (w Settings_env_file). exact Hs. }
  destruct c; cbn [perform].
  - apply Hget. reflexivity.
  - unfold reload_settings. apply Hget. reflexivity.
  - unfold get_test_settings.
    destruct (Settings_new (w TestSettings_env_file)) as [e|self] eqn:Hs; cbn.
    + exists []. rewrite app_nil_r. auto.
    + exists [self]. split; [reflexivity |].
      repeat constructor. exists (w TestSettings_env_file). exact Hs.
Qed.

Lemma well_formed_perform (c : Call) (w : World) (p : Process) :
  well_formed p -> well_formed (fst (perform c w p)).
Proof.
  destruct c; cbn [perform];
    auto using well_formed_get_settings, well_formed_reload_settings,
               well_formed_get_test_settings.
Qed.

Lemma run_app (cs cs' : list (Call * World)) (p : Process) :
  run (cs ++ cs') p = run cs' (run cs p).
Proof.
  revert p. induction cs as [|[c w] cs IH]; intros p; [reflexivity |].
  cbn [run app]. apply IH.
Qed.

Lemma run_extends (cs : list (Call * World)) (p : Process) :
  well_formed p ->
  well_formed (run cs p)
  /\ exists l, objects (run cs p) = (objects p ++ l)%list /\ Forall constructed l.
Proof.
  revert p. induction cs as [|[c w] cs IH]; intros p Hwf.
  - split; [exact Hwf |]. exists []. rewrite app_nil_r. auto.
  - cbn [run].
    destruct (IH _ (well_formed_perform c w p Hwf)) as (Hwf' & l' & Hl' & Hall').
    destruct (perform_extends c w p) as (l & Hl & Hall).
    split; [exact Hwf' |].
    exists (l ++ l')%list. rewrite Hl', Hl, app_assoc.
    split; [reflexivity |]. apply Forall_app. auto.
Qed.

(** X14. After any sequence of calls of [get_settings],
    [reload_settings] and [get_test_settings], in any environments and
    with any of them failing, the module global, if set, refers to an
    existing instance; every instance ever handed out was produced by a
    successful construction; and an instance, once handed out, stays the
    same under its reference whatever is called later. *)
Theorem runs_keep_references_valid (cs : list (Call * World)) :
  (forall r, _settings_instance (run cs unloaded) = Some r ->
             exists self, deref (run cs unloaded) r = Some self)
  /\ (forall r self, deref (run cs unloaded) r = Some self -> constructed self)
  /\ (forall cs' r self,
        deref (run cs unloaded) r = Some self ->
        deref (run (cs ++ cs') unloaded) r = Some self).
Proof.
  destruct (run_extends cs unloaded well_formed_unloaded) as (Hwf & l & Hl & Hall).
  split; [| split].
  - intros r Hc. unfold well_formed in Hwf. rewrite Hc in Hwf.
    apply lookup_lt_is_Some_2 in Hwf. exact Hwf.
  - intros r self Hd. unfold deref in Hd. rewrite Hl in Hd. cbn in Hd.
    apply list_elem_of_lookup_2 in Hd.
    rewrite Forall_forall in Hall. auto.
  - intros cs' r self Hd. rewrite run_app.
    destruct (run_extends cs' (run cs unloaded) Hwf) as (_ & l' & Hl' & _).
    unfold deref in *. rewrite Hl'. apply lookup_app_l_Some. exact Hd.
Qed.

(** ** The whole error *)

Lemma Settings_validate_errors (src : Source.t) :
  errors (Settings_validate src) = all_field_errors src.
Proof.
  unfold Settings_validate, all_field_errors. rewrite !ap_errors.
  cbn [errors app]. rewrite <- !app_assoc. reflexivity.
Qed.

(** X15. What a failed construction raises is never empty. When the text
    of the list field is not JSON it is the one line of the
    [SettingsError] on [SUPPORTED_FORMATS], whatever else is wrong.
    Otherwise it is complete and orderly: the errors of all the fields
    that failed, in declaration order, with one line for each item of the
    list field that is no string, followed by one line for each key that
    is no field. In particular validation does not stop at the first
    field that fails. *)
Theorem raised_error_lists_every_failure (src : Source.t) (e : ValidationError) :
  Settings_new src = inl e ->
  e <> []
  /\ (Source.SUPPORTED_FORMATS src = Malformed not_json ->
      e = [("SUPPORTED_FORMATS", settings_error)])
  /\ (decodes src -> e = (all_field_errors src ++ extra_errors src)%list).
Proof.
  intros He. split; [| split].
  - pose proof (Settings_new_nonempty src) as Hne. rewrite He in Hne. exact Hne.
  - intros Hn. rewrite (Settings_new_not_json src Hn) in He. congruence.
  - intros Hd. change e with (errors (@inl _ Settings e)). rewrite <- He.
    rewrite (Settings_new_errors src Hd), Settings_validate_errors. reflexivity.
Qed.

Lemma raised_error_lists_every_failure_witness :
  [("TELEGRAM_BOT_TOKEN", missing); ("PHOTOROOM_API_KEY", missing);
   ("SUPPORTED_FORMATS", string_type 0); ("SUPPORTED_FORMATS", string_type 1);
   ("debug", extra_forbidden)]
  = (all_field_errors
       (Source.make Unset Unset Unset Unset Unset Unset Unset Unset
          (Malformed (items_not_strings 0 [1%nat])) Unset Unset Unset Unset Unset Unset
          Unset Unset ["debug"])
     ++ extra_errors
          (Source.make Unset Unset Unset Unset Unset Unset Unset Unset
             (Malformed (items_not_strings 0 [1%nat])) Unset Unset Unset Unset Unset
             Unset Unset Unset ["debug"]))%list.
Proof.
  apply (raised_error_lists_every_failure
           (Source.make Unset Unset Unset Unset Unset Unset Unset Unset
              (Malformed (items_not_strings 0 [1%nat])) Unset Unset Unset Unset Unset
              Unset Unset Unset ["debug"])
           [("TELEGRAM_BOT_TOKEN", missing); ("PHOTOROOM_API_KEY", missing);
            ("SUPPORTED_FORMATS", string_type 0); ("SUPPORTED_FORMATS", string_type 1);
            ("debug", extra_forbidden)]).
  - vm_compute. reflexivity.
  - discriminate.
Defined.

(** ** The application and its settings *)

Lemma get_settings_result_is_cached (w : World) (p : Process) (r : Ref) :
  snd (get_settings w p) = inr r ->
  _settings_instance (fst (get_settings w p)) = Some r.
Proof.
  intros Hr. destruct (_settings_instance p) as [r0|] eqn:Hc.
  - rewrite (get_settings_cached w p r0 Hc) in *. cbn in *.
    injection Hr as <-. exact Hc.
  - destruct (Settings_new (w Settings_env_file)) as [e|self] eqn:Hs.
    + rewrite (get_settings_raises w p e Hc Hs) in Hr. discriminate Hr.
    + rewrite (get_settings_loads w p self Hc Hs) in *. cbn in *.
      injection Hr as <-. reflexivity.
Qed.

(** X16. [create_application] never builds an application on a
    configuration that failed: the error of [get_settings] comes out
    unchanged and no application is added. When it returns an
    application, that is a new object whose [state.settings] is the
    instance that is cached from then on, so every later call of
    [get_settings] returns that same object. A second application made in
    the same process is another object; its [state.settings] is the same
    instance, the first application is left as it was, and the settings
    are neither constructed nor printed again. *)
Theorem create_application_shares_the_cached_settings (w : World) (g : Program) :
  (forall e, snd (get_settings w (settings_module g)) = inl e ->
             create_application w g =
               ({| settings_module := fst (get_settings w (settings_module g));
                   applications := applications g |}, inl e))
  /\ (forall a, snd (create_application w g) = inr a ->
        a = List.length (applications g)
        /\ application g a = None
        /\ exists app,
             application (fst (create_application w g)) a = Some app
             /\ snd (get_settings w (settings_module g)) = inr (state_settings app)
             /\ version app = "1.0.0" /\ docs_url app = "/docs"
             /\ redoc_url app = "/redoc"
             /\ _settings_instance (settings_module (fst (create_application w g)))
                = Some (state_settings app)
             /\ (forall w',
                   get_settings w' (settings_module (fst (create_application w g))) =
                   (settings_module (fst (create_application w g)),
                    inr (state_settings app)))
             /\ (forall w',
                   snd (create_application w' (fst (create_application w g))) = inr (S a)
                   /\ settings_module
                        (fst (create_application w' (fst (create_application w g))))
                      = settings_module (fst (create_application w g))
                   /\ application
                        (fst (create_application w' (fst (create_application w g)))) a
                      = Some app
                   /\ exists app',
                        application
                          (fst (create_application w' (fst (create_application w g))))
                          (S a) = Some app'
                        /\ state_settings app' = state_settings app)).
Proof.
  split.
  - intros e He. unfold create_application.
    destruct (get_settings w (settings_module g)) as [p1 [e'|r]]; cbn in *; congruence.
  - intros a Ha.
    pose proof (get_settings_result_is_cached w (settings_module g)) as Hcache.
    unfold create_application in Ha |- *.
    destruct (get_settings w (settings_module g)) as [p1 [e|r]] eqn:Hg;
      cbn in Ha; [discriminate Ha |].
    injection Ha as <-. cbn [fst snd] in *. specialize (Hcache r eq_refl).
    split; [reflexivity |].
    split; [apply lookup_ge_None_2; lia |].
    eexists. split.
    { unfold application. cbn. rewrite lookup_app_r by lia.
      rewrite Nat.sub_diag. reflexivity. }
    cbn. repeat (split; [reflexivity |]).
    split; [exact Hcache |].
    split; [intros w'; apply get_settings_cached, Hcache |].
    intros w'. unfold create_application. cbn [settings_module applications].
    rewrite (get_settings_cached w' p1 r Hcache). cbn.
    split; [rewrite length_app; cbn; f_equal; lia |].
    split; [reflexivity |].
    split.
    + unfold application. cbn. rewrite lookup_app_l by (rewrite length_app; cbn; lia).
      rewrite lookup_app_r by lia. rewrite Nat.sub_diag. reflexivity.
    + eexists. split.
      * unfold application. cbn.
        rewrite lookup_app_r by (rewrite length_app; cbn; lia).
        rewrite length_app. cbn.
        replace (S (List.length (applications g))
                 - (List.length (applications g) + 1))%nat with 0%nat by lia.
        reflexivity.
      * reflexivity.
Qed.

Lemma create_application_shares_the_cached_settings_witness :
  snd (create_application (everywhere Source.empty) (Build_Program unloaded []))
  = inl [("TELEGRAM_BOT_TOKEN", missing); ("PHOTOROOM_API_KEY", missing)]
  /\ 0%nat = List.length (applications (Build_Program unloaded [])).
Proof.
  split.
  - rewrite (proj1 (create_application_shares_the_cached_settings
                      (everywhere Source.empty) (Build_Program unloaded []))
               [("TELEGRAM_BOT_TOKEN", missing); ("PHOTOROOM_API_KEY", missing)]
               eq_refl).
    reflexivity.
  - apply (proj2 (create_application_shares_the_cached_settings
                    (everywhere secrets_only) (Build_Program unloaded [])) 0%nat).
    reflexivity.
Defined.

(** ** The test variant leaves no trace *)

(** X17. Whatever [get_test_settings] did just before, [get_settings]
    gives its caller what it would have given otherwise: the same error,
    or an instance with the same fields. *)
Theorem get_test_settings_is_invisible_to_get_settings (w w' : World) (p : Process) :
  well_formed p ->
  observed (get_settings w (fst (get_test_settings w' p))) = observed (get_settings w p).
Proof.
  intros Hwf. unfold get_test_settings.
  destruct (Settings_new (w' TestSettings_env_file)) as [e'|tested]; [reflexivity |].
  cbn [allocate fst].
  destruct (_settings_instance p) as [r|] eqn:Hc.
  - erewrite !get_settings_cached by (cbn; first [reflexivity | exact Hc]).
    unfold observed, deref. cbn. f_equal.
    unfold well_formed in Hwf. rewrite Hc in Hwf. apply lookup_app_l. exact Hwf.
  - destruct (Settings_new (w Settings_env_file)) as [e|self] eqn:Hs.
    + erewrite !get_settings_raises by (cbn; first [reflexivity | exact Hc | exact Hs]).
      reflexivity.
    + erewrite !get_settings_loads by (cbn; first [reflexivity | exact Hc | exact Hs]).
      unfold observed, deref. cbn. f_equal.
      rewrite !lookup_app_r by (rewrite ?length_app; lia).
      rewrite !Nat.sub_diag. reflexivity.
Qed.

Lemma get_test_settings_is_invisible_to_get_settings_witness :
  observed (get_settings (everywhere Source.empty)
              (fst (get_test_settings (everywhere secrets_only) unloaded)))
  = inl [("TELEGRAM_BOT_TOKEN", missing); ("PHOTOROOM_API_KEY", missing)].
Proof.
  rewrite (get_test_settings_is_invisible_to_get_settings
             (everywhere Source.empty) (everywhere secrets_only) unloaded
             well_formed_unloaded).
  reflexivity.
Defined.

(** ** Normalising the webhook URL twice *)

(** X18. [validate_webhook_url] never raises, and what it returns it
    returns again when applied to its own result: a URL that was kept is
    kept again, and [None] stays [None]. *)
Theorem validate_webhook_url_idempotent (v : option string) :
  exists o, validate_webhook_url v = inr o /\ validate_webhook_url o = inr o.
Proof.
  destruct v as [u|]; [| exists None; split; reflexivity].
  rewrite validate_webhook_url_Some.
  destruct (String.prefix "https://yourdomain" u) eqn:Hp.
  - exists None. split; reflexivity.
  - exists (Some u). split; [reflexivity |].
    rewrite validate_webhook_url_Some, Hp. reflexivity.
Qed.
